(** * Tomatobar: the Pomodoro timer engine of [tomatobar_backend.py]

    A shallow embedding of class [PomodoroTimer]: the timer attributes are a
    record, every method is a function in a small state-and-exception monad
    over the timer together with the traces of its effects (rows inserted in
    the [sessions] table, the status file, the logger, desktop notifications).

    Modelling conventions:
    - Python integers are [Z]; [%] and [divmod] round towards minus infinity,
      as [Z.modulo] and [Z.div] do, and [%] by zero raises.
    - [int(time.time())] is an argument [now] of every method that reads the
      clock; one serialized event (a command or a loop iteration) reads one
      clock value.
    - The SQLite insert and the status-file write are recorded as issued; their
      I/O failures are caught in the source and never reach the engine.
    - The logger is configured at level INFO, so [logger.debug] calls leave no
      record and are omitted. *)

From Stdlib Require Import ZArith List String Bool Lia DecimalString.
Import ListNotations.
Open Scope Z_scope.

(** ** Data model *)

(** [class PomodoroState(Enum)] *)
Inductive PomodoroState : Type :=
| IDLE
| WORK
| SHORT_BREAK
| LONG_BREAK
| PAUSED.

Definition state_eqb (a b : PomodoroState) : bool :=
  match a, b with
  | IDLE, IDLE | WORK, WORK | SHORT_BREAK, SHORT_BREAK
  | LONG_BREAK, LONG_BREAK | PAUSED, PAUSED => true
  | _, _ => false
  end.

(** Python's [x in [a, b, ...]] on enum members. *)
Definition state_in (s : PomodoroState) (l : list PomodoroState) : bool :=
  existsb (state_eqb s) l.

(** The keys of [config.json] that the engine reads. *)
Record Config : Type := {
  work_duration_minutes : Z;
  short_break_duration_minutes : Z;
  long_break_duration_minutes : Z;
  pomodoros_before_long_break : Z;
  notification_sound_work_end : string;
  notification_sound_break_end : string
}.

(** The default configuration written by [_load_config]. *)
Definition default_config : Config := {|
  work_duration_minutes := 25;
  short_break_duration_minutes := 5;
  long_break_duration_minutes := 15;
  pomodoros_before_long_break := 4;
  notification_sound_work_end := EmptyString;
  notification_sound_break_end := EmptyString
|}.

(** The attributes of a [PomodoroTimer] instance.  [paused_state] is not
    assigned by [__init__]: [None] stands for the missing attribute. *)
Record PomodoroTimer : Type := {
  config : Config;
  current_state : PomodoroState;
  time_remaining_seconds : Z;
  pomodoros_completed_in_cycle : Z;
  session_start_timestamp : option Z;
  paused_state : option PomodoroState;
  paused_time_remaining : Z;
  running : bool
}.

(** A row of table [sessions]; [session_type] is column [type]. *)
Record SessionRecord : Type := {
  start_time : Z;
  end_time : Z;
  session_type : string;
  completed : bool;
  duration_actual_seconds : Z;
  pomodoro_count_at_completion : Z
}.

(** The JSON document of the status file. *)
Record Status : Type := {
  status_state : string;
  status_time_remaining : Z;
  status_pomodoros_completed : Z;
  status_total_pomodoros_for_long_break : Z;
  status_message : string
}.

Inductive Exn : Type :=
| ZeroDivisionError
| AttributeError
| SystemExit (code : Z).

(** [SystemExit] derives from [BaseException] only. *)
Definition is_Exception (e : Exn) : bool :=
  match e with
  | SystemExit _ => false
  | _ => true
  end.

Inductive Level : Type := INFO | WARNING | ERROR.

(** The logger calls of the engine, with the values their f-strings print. *)
Inductive LogMessage : Type :=
| Received_command (command : string)
| Unknown_command (command : string)
| Started_work_session
| Started_long_break
| Started_short_break
| Paused_session
| Resumed_session
| Skipped_current_phase
| Reset_timer
| Restarted_Pomodoro_cycle
| Logged_session (ty : string) (duration : Z) (completed : bool)
| Notification_sent (title : string)
| Unexpected_error_writing_status (e : Exn)
| Error_in_command_listener (e : Exn)
| Error_in_main_loop (e : Exn)
| Received_signal (signum : Z)
| Starting_main_timer_loop.

(** The timer and everything it has written so far. *)
Record World : Type := {
  timer : PomodoroTimer;
  sessions : list SessionRecord;
  status_file : option Status;
  log : list (Level * LogMessage);
  notifications : list (string * string);
  sounds : list string
}.

(** ** Attribute assignment *)

Definition set_current_state (v : PomodoroState) (t : PomodoroTimer) :=
  {| config := config t; current_state := v;
     time_remaining_seconds := time_remaining_seconds t;
     pomodoros_completed_in_cycle := pomodoros_completed_in_cycle t;
     session_start_timestamp := session_start_timestamp t;
     paused_state := paused_state t;
     paused_time_remaining := paused_time_remaining t;
     running := running t |}.

Definition set_time_remaining_seconds (v : Z) (t : PomodoroTimer) :=
  {| config := config t; current_state := current_state t;
     time_remaining_seconds := v;
     pomodoros_completed_in_cycle := pomodoros_completed_in_cycle t;
     session_start_timestamp := session_start_timestamp t;
     paused_state := paused_state t;
     paused_time_remaining := paused_time_remaining t;
     running := running t |}.

Definition set_pomodoros_completed_in_cycle (v : Z) (t : PomodoroTimer) :=
  {| config := config t; current_state := current_state t;
     time_remaining_seconds := time_remaining_seconds t;
     pomodoros_completed_in_cycle := v;
     session_start_timestamp := session_start_timestamp t;
     paused_state := paused_state t;
     paused_time_remaining := paused_time_remaining t;
     running := running t |}.

Definition set_session_start_timestamp (v : option Z) (t : PomodoroTimer) :=
  {| config := config t; current_state := current_state t;
     time_remaining_seconds := time_remaining_seconds t;
     pomodoros_completed_in_cycle := pomodoros_completed_in_cycle t;
     session_start_timestamp := v;
     paused_state := paused_state t;
     paused_time_remaining := paused_time_remaining t;
     running := running t |}.

Definition set_paused_state (v : PomodoroState) (t : PomodoroTimer) :=
  {| config := config t; current_state := current_state t;
     time_remaining_seconds := time_remaining_seconds t;
     pomodoros_completed_in_cycle := pomodoros_completed_in_cycle t;
     session_start_timestamp := session_start_timestamp t;
     paused_state := Some v;
     paused_time_remaining := paused_time_remaining t;
     running := running t |}.

Definition set_paused_time_remaining (v : Z) (t : PomodoroTimer) :=
  {| config := config t; current_state := current_state t;
     time_remaining_seconds := time_remaining_seconds t;
     pomodoros_completed_in_cycle := pomodoros_completed_in_cycle t;
     session_start_timestamp := session_start_timestamp t;
     paused_state := paused_state t;
     paused_time_remaining := v;
     running := running t |}.

Definition set_running (v : bool) (t : PomodoroTimer) :=
  {| config := config t; current_state := current_state t;
     time_remaining_seconds := time_remaining_seconds t;
     pomodoros_completed_in_cycle := pomodoros_completed_in_cycle t;
     session_start_timestamp := session_start_timestamp t;
     paused_state := paused_state t;
     paused_time_remaining := paused_time_remaining t;
     running := v |}.

Definition with_timer (t : PomodoroTimer) (w : World) : World :=
  {| timer := t; sessions := sessions w; status_file := status_file w;
     log := log w; notifications := notifications w; sounds := sounds w |}.

Definition with_sessions (l : list SessionRecord) (w : World) : World :=
  {| timer := timer w; sessions := l; status_file := status_file w;
     log := log w; notifications := notifications w; sounds := sounds w |}.

Definition with_status_file (s : option Status) (w : World) : World :=
  {| timer := timer w; sessions := sessions w; status_file := s;
     log := log w; notifications := notifications w; sounds := sounds w |}.

Definition with_log (l : list (Level * LogMessage)) (w : World) : World :=
  {| timer := timer w; sessions := sessions w; status_file := status_file w;
     log := l; notifications := notifications w; sounds := sounds w |}.

Definition with_notifications (l : list (string * string)) (w : World) : World :=
  {| timer := timer w; sessions := sessions w; status_file := status_file w;
     log := log w; notifications := l; sounds := sounds w |}.

Definition with_sounds (l : list string) (w : World) : World :=
  {| timer := timer w; sessions := sessions w; status_file := status_file w;
     log := log w; notifications := notifications w; sounds := l |}.

(** ** The monad of methods: state passing with Python exceptions *)

Inductive Result (A : Type) : Type :=
| Return (a : A)
| Raise (e : Exn).
Arguments Return {A} a.
Arguments Raise {A} e.

Definition M (A : Type) : Type := World -> Result A * World.

Definition ret {A} (a : A) : M A := fun w => (Return a, w).

Definition raise {A} (e : Exn) : M A := fun w => (Raise e, w).

Definition bind {A B} (m : M A) (k : A -> M B) : M B :=
  fun w =>
    match m w with
    | (Return a, w') => k a w'
    | (Raise e, w') => (Raise e, w')
    end.

Declare Scope py_scope.
Delimit Scope py_scope with py.
Notation "x <- m ;; k" := (bind m (fun x => k))
  (at level 61, m at next level, right associativity) : py_scope.
Notation "m ;; k" := (bind m (fun _ => k))
  (at level 61, right associativity) : py_scope.
Open Scope py_scope.

(** [try: body  except Exception as e: handler(e)] *)
Definition try_except (body : M unit) (handler : Exn -> M unit) : M unit :=
  fun w =>
    match body w with
    | (Raise e, w') => if is_Exception e then handler e w' else (Raise e, w')
    | r => r
    end.

(** The world a method leaves behind, and how it returned. *)
Definition exec {A} (m : M A) (w : World) : World := snd (m w).
Definition outcome {A} (m : M A) (w : World) : Result A := fst (m w).

Definition self : M PomodoroTimer := fun w => (Return (timer w), w).

Definition assign (f : PomodoroTimer -> PomodoroTimer) : M unit :=
  fun w => (Return tt, with_timer (f (timer w)) w).

(** Reading [self.paused_state] before [_pause] ever assigned it. *)
Definition get_paused_state : M PomodoroState :=
  fun w =>
    match paused_state (timer w) with
    | Some s => (Return s, w)
    | None => (Raise AttributeError, w)
    end.

Definition logger (lvl : Level) (msg : LogMessage) : M unit :=
  fun w => (Return tt, with_log (log w ++ [(lvl, msg)]) w).

Definition insert_session (r : SessionRecord) : M unit :=
  fun w => (Return tt, with_sessions (sessions w ++ [r]) w).

Definition write_status_file (s : Status) : M unit :=
  fun w => (Return tt, with_status_file (Some s) w).

(** [a % b] *)
Definition py_mod (a b : Z) : M Z :=
  if b =? 0 then raise ZeroDivisionError else ret (a mod b).

(** [f"{n:02d}"] *)
Definition format_02d (n : Z) : string :=
  let s := NilZero.string_of_int (Z.to_int n) in
  if (String.length s <? 2)%nat then ("0" ++ s)%string else s.

(** Truth value of a Python string. *)
Definition nonempty (s : string) : bool :=
  match s with
  | EmptyString => false
  | _ => true
  end.

(** ** The methods of [PomodoroTimer] *)

Definition state_map (s : PomodoroState) : string :=
  match s with
  | IDLE => "idle"
  | WORK => "work"
  | SHORT_BREAK => "short_break"
  | LONG_BREAK => "long_break"
  | PAUSED => "paused"
  end%string.

(** [_write_status]: the whole body sits in [try ... except Exception]. *)
Definition _write_status : M unit :=
  try_except
    (t <- self ;;
     let minutes := time_remaining_seconds t / 60 in
     let seconds := time_remaining_seconds t mod 60 in
     let time_string := (format_02d minutes ++ ":" ++ format_02d seconds)%string in
     message <-
       match current_state t with
       | WORK => ret ("Work: " ++ time_string)%string
       | SHORT_BREAK => ret ("Break: " ++ time_string)%string
       | LONG_BREAK => ret ("Long Break: " ++ time_string)%string
       | PAUSED =>
           p <- get_paused_state ;;
           match p with
           | WORK => ret ("Paused Work: " ++ time_string)%string
           | SHORT_BREAK => ret ("Paused Break: " ++ time_string)%string
           | LONG_BREAK => ret ("Paused Long Break: " ++ time_string)%string
           | _ => ret EmptyString
           end
       | IDLE => ret "Ready"%string
       end ;;
     write_status_file
       {| status_state := state_map (current_state t);
          status_time_remaining := time_remaining_seconds t;
          status_pomodoros_completed := pomodoros_completed_in_cycle t;
          status_total_pomodoros_for_long_break :=
            pomodoros_before_long_break (config t);
          status_message := message |})
    (fun e => logger ERROR (Unexpected_error_writing_status e)).

Definition _start_work_session (now : Z) : M unit :=
  assign (set_current_state WORK) ;;
  t <- self ;;
  assign (set_time_remaining_seconds (work_duration_minutes (config t) * 60)) ;;
  assign (set_session_start_timestamp (Some now)) ;;
  _write_status ;;
  logger INFO Started_work_session.

Definition _start_break (is_long_break : bool) (now : Z) : M unit :=
  (if is_long_break then
     assign (set_current_state LONG_BREAK) ;;
     t <- self ;;
     assign (set_time_remaining_seconds
               (long_break_duration_minutes (config t) * 60)) ;;
     logger INFO Started_long_break
   else
     assign (set_current_state SHORT_BREAK) ;;
     t <- self ;;
     assign (set_time_remaining_seconds
               (short_break_duration_minutes (config t) * 60)) ;;
     logger INFO Started_short_break) ;;
  assign (set_session_start_timestamp (Some now)) ;;
  _write_status.

(** [type_map], with [None] for a state that is not one of its keys. *)
Definition type_map (s : PomodoroState) : option string :=
  match s with
  | WORK => Some "work"%string
  | SHORT_BREAK => Some "short_break"%string
  | LONG_BREAK => Some "long_break"%string
  | _ => None
  end.

Definition _log_session (completed : bool) (now : Z) : M unit :=
  t <- self ;;
  match session_start_timestamp t with
  | None => ret tt
  | Some started =>
      let end_time := now in
      let duration := end_time - started in
      state <- (if state_eqb (current_state t) PAUSED
                then get_paused_state
                else ret (current_state t)) ;;
      match type_map state with
      | Some session_type =>
          insert_session
            {| start_time := started;
               end_time := end_time;
               session_type := session_type;
               completed := completed;
               duration_actual_seconds := duration;
               pomodoro_count_at_completion := pomodoros_completed_in_cycle t |} ;;
          logger INFO (Logged_session session_type duration completed)
      | None => ret tt
      end
  end.

Definition _pause (now : Z) : M unit :=
  t <- self ;;
  if negb (state_eqb (current_state t) PAUSED) then
    assign (set_paused_state (current_state t)) ;;
    assign (set_paused_time_remaining (time_remaining_seconds t)) ;;
    assign (set_current_state PAUSED) ;;
    _log_session false now ;;
    _write_status ;;
    logger INFO Paused_session
  else ret tt.

Definition _resume (now : Z) : M unit :=
  t <- self ;;
  if state_eqb (current_state t) PAUSED then
    p <- get_paused_state ;;
    assign (set_current_state p) ;;
    assign (set_time_remaining_seconds (paused_time_remaining t)) ;;
    assign (set_session_start_timestamp (Some now)) ;;
    _write_status ;;
    logger INFO Resumed_session
  else ret tt.

(** [subprocess.run(["notify-send", title, body])] inside [try/except]. *)
Definition _send_notification (title body : string) : M unit :=
  (fun w => (Return tt, with_notifications (notifications w ++ [(title, body)]) w)) ;;
  logger INFO (Notification_sent title).

(** [_play_sound]: the request is recorded; whether the file exists and is
    played is outside the engine, and every failure is caught. *)
Definition _play_sound (sound_path : string) : M unit :=
  fun w => (Return tt, with_sounds (sounds w ++ [sound_path]) w).

Definition _complete_work_session (was_skipped : bool) (now : Z) : M unit :=
  _log_session (negb was_skipped) now ;;
  t <- self ;;
  assign (set_pomodoros_completed_in_cycle (pomodoros_completed_in_cycle t + 1)) ;;
  _send_notification "Pomodoro completed!" "Time for a break!" ;;
  t <- self ;;
  (if nonempty (notification_sound_work_end (config t))
   then _play_sound (notification_sound_work_end (config t))
   else ret tt) ;;
  r <- py_mod (pomodoros_completed_in_cycle t)
              (pomodoros_before_long_break (config t)) ;;
  if r =? 0 then _start_break true now else _start_break false now.

Definition _complete_break_session (was_skipped : bool) (now : Z) : M unit :=
  _log_session (negb was_skipped) now ;;
  _send_notification "Break completed!" "Time to focus!" ;;
  t <- self ;;
  (if nonempty (notification_sound_break_end (config t))
   then _play_sound (notification_sound_break_end (config t))
   else ret tt) ;;
  _start_work_session now.

Definition _skip_current_phase (now : Z) : M unit :=
  _log_session false now ;;
  t <- self ;;
  (if state_eqb (current_state t) WORK
   then _complete_work_session true now
   else _start_work_session now) ;;
  logger INFO Skipped_current_phase.

Definition _reset (now : Z) : M unit :=
  t <- self ;;
  (if negb (state_eqb (current_state t) IDLE)
   then _log_session false now
   else ret tt) ;;
  assign (set_current_state IDLE) ;;
  assign (set_time_remaining_seconds 0) ;;
  assign (set_session_start_timestamp None) ;;
  _write_status ;;
  logger INFO Reset_timer.

Definition _restart_cycle (now : Z) : M unit :=
  t <- self ;;
  (if negb (state_eqb (current_state t) IDLE)
   then _log_session false now
   else ret tt) ;;
  assign (set_pomodoros_completed_in_cycle 0) ;;
  _start_work_session now ;;
  logger INFO Restarted_Pomodoro_cycle.

Definition _process_command (command : string) (now : Z) : M unit :=
  if (command =? "start")%string then
    t <- self ;;
    if state_eqb (current_state t) IDLE then _start_work_session now
    else if state_eqb (current_state t) PAUSED then _resume now
    else ret tt
  else if (command =? "pause")%string then
    t <- self ;;
    if state_in (current_state t) [WORK; SHORT_BREAK; LONG_BREAK]
    then _pause now else ret tt
  else if (command =? "resume")%string then
    t <- self ;;
    if state_eqb (current_state t) PAUSED then _resume now else ret tt
  else if (command =? "skip")%string then
    t <- self ;;
    if state_in (current_state t) [WORK; SHORT_BREAK; LONG_BREAK]
    then _skip_current_phase now else ret tt
  else if (command =? "reset")%string then _reset now
  else if (command =? "restart_cycle")%string then _restart_cycle now
  else if (command =? "get_status")%string then _write_status
  else logger WARNING (Unknown_command command).

(** The inner loop body of [_command_listener] for one line, already
    stripped: a blank line is dropped, anything else is processed, and an
    exception is logged by the handler of the enclosing [try]. *)
Definition _command_listener (command : string) (now : Z) : M unit :=
  try_except
    (if nonempty command then
       logger INFO (Received_command command) ;;
       _process_command command now
     else ret tt)
    (fun e => logger ERROR (Error_in_command_listener e)).

(** [_handle_exit]: the signal handler; [sys.exit(0)] ends it. *)
Definition _handle_exit (signum : Z) (now : Z) : M unit :=
  logger INFO (Received_signal signum) ;;
  t <- self ;;
  (if negb (state_in (current_state t) [IDLE; PAUSED])
   then _log_session false now
   else ret tt) ;;
  assign (set_running false) ;;
  raise (SystemExit 0).

(** One iteration of the [while self.running] loop of [run]. *)
Definition run_iteration (now : Z) : M unit :=
  try_except
    (t <- self ;;
     if negb (state_in (current_state t) [IDLE; PAUSED]) then
       if time_remaining_seconds t >? 0 then
         assign (set_time_remaining_seconds (time_remaining_seconds t - 1)) ;;
         t <- self ;;
         if time_remaining_seconds t mod 5 =? 0 then _write_status else ret tt
       else
         if state_eqb (current_state t) WORK
         then _complete_work_session false now
         else if state_in (current_state t) [SHORT_BREAK; LONG_BREAK]
         then _complete_break_session false now
         else ret tt
     else ret tt)
    (fun e => logger ERROR (Error_in_main_loop e)).

(** Where a bounded unrolling of [while self.running] stands when the clock
    readings are used up: the condition was found false and the loop was
    left, or it is still looping. *)
Inductive Loop : Type :=
| loop_left
| still_looping.

(** The [while self.running] loop of [run], one clock reading per
    iteration. *)
Fixpoint run_loop (clock : list Z) : M Loop :=
  t <- self ;;
  if running t then
    match clock with
    | [] => ret still_looping
    | now :: clock' => run_iteration now ;; run_loop clock'
    end
  else ret loop_left.

(** [run]: the start of the loop is logged, then the loop is entered. *)
Definition run (clock : list Z) : M Loop :=
  logger INFO Starting_main_timer_loop ;;
  run_loop clock.

(** The state right after [__init__]. *)
Definition init (cfg : Config) : World :=
  {| timer :=
       {| config := cfg;
          current_state := IDLE;
          time_remaining_seconds := 0;
          pomodoros_completed_in_cycle := 0;
          session_start_timestamp := None;
          paused_state := None;
          paused_time_remaining := 0;
          running := true |};
     sessions := [];
     status_file := None;
     log := [];
     notifications := [];
     sounds := [] |}.

(** ** The serialized engine *)

(** The two sources of events: a line on the command FIFO and an iteration of
    the main loop. *)
Inductive Event : Type :=
| Command (command : string) (now : Z)
| Tick (now : Z).

Definition handle (w : World) (e : Event) : World :=
  match e with
  | Command command now => exec (_command_listener command now) w
  | Tick now => exec (run_iteration now) w
  end.

Definition handle_all (w : World) (es : list Event) : World :=
  fold_left handle es w.

Inductive Reachable (cfg : Config) : World -> Prop :=
| Reachable_init : Reachable cfg (init cfg)
| Reachable_step : forall w e, Reachable cfg w -> Reachable cfg (handle w e).

Definition active (s : PomodoroState) : bool :=
  state_in s [WORK; SHORT_BREAK; LONG_BREAK].

(** The verbs of the command channel. *)
Definition verbs : list string :=
  ["start"; "pause"; "resume"; "skip"; "reset"; "restart_cycle"; "get_status"]%string.

(** ** The net effect of the methods on the timer and on table [sessions]

    These functions summarise what a method leaves in the timer attributes
    and which rows it inserts; the lemmas of the next part prove that the
    methods above compute them. *)

(** The state whose type [_log_session] records. *)
Definition logged_state (t : PomodoroTimer) : PomodoroState :=
  match current_state t, paused_state t with
  | PAUSED, Some p => p
  | s, _ => s
  end.

(** The rows one call of [_log_session] inserts. *)
Definition logged_rows (t : PomodoroTimer) (completed : bool) (now : Z)
  : list SessionRecord :=
  match session_start_timestamp t with
  | None => []
  | Some started =>
      match type_map (logged_state t) with
      | Some ty =>
          [{| start_time := started;
              end_time := now;
              session_type := ty;
              completed := completed;
              duration_actual_seconds := now - started;
              pomodoro_count_at_completion := pomodoros_completed_in_cycle t |}]
      | None => []
      end
  end.

Definition after_start_work (now : Z) (t : PomodoroTimer) : PomodoroTimer :=
  set_session_start_timestamp (Some now)
    (set_time_remaining_seconds (work_duration_minutes (config t) * 60)
       (set_current_state WORK t)).

Definition after_start_break (is_long_break : bool) (now : Z) (t : PomodoroTimer)
  : PomodoroTimer :=
  set_session_start_timestamp (Some now)
    (if is_long_break
     then set_time_remaining_seconds (long_break_duration_minutes (config t) * 60)
            (set_current_state LONG_BREAK t)
     else set_time_remaining_seconds (short_break_duration_minutes (config t) * 60)
            (set_current_state SHORT_BREAK t)).

(** [_complete_work_session]: with a zero threshold the increment is kept and
    [%] raises before any break starts. *)
Definition after_complete_work (now : Z) (t : PomodoroTimer) : PomodoroTimer :=
  let t1 := set_pomodoros_completed_in_cycle (pomodoros_completed_in_cycle t + 1) t in
  if pomodoros_before_long_break (config t) =? 0 then t1
  else after_start_break
         ((pomodoros_completed_in_cycle t + 1)
            mod pomodoros_before_long_break (config t) =? 0) now t1.

Definition after_pause (t : PomodoroTimer) : PomodoroTimer :=
  set_current_state PAUSED
    (set_paused_time_remaining (time_remaining_seconds t)
       (set_paused_state (current_state t) t)).

Definition after_resume (now : Z) (t : PomodoroTimer) : PomodoroTimer :=
  set_session_start_timestamp (Some now)
    (set_time_remaining_seconds (paused_time_remaining t)
       (set_current_state (logged_state t) t)).

Definition after_reset (t : PomodoroTimer) : PomodoroTimer :=
  set_session_start_timestamp None
    (set_time_remaining_seconds 0 (set_current_state IDLE t)).

Definition after_restart_cycle (now : Z) (t : PomodoroTimer) : PomodoroTimer :=
  after_start_work now (set_pomodoros_completed_in_cycle 0 t).

Definition after_command (command : string) (now : Z) (t : PomodoroTimer)
  : PomodoroTimer :=
  if (command =? "start")%string then
    match current_state t with
    | IDLE => after_start_work now t
    | PAUSED => after_resume now t
    | _ => t
    end
  else if (command =? "pause")%string then
    if active (current_state t) then after_pause t else t
  else if (command =? "resume")%string then
    match current_state t with
    | PAUSED => after_resume now t
    | _ => t
    end
  else if (command =? "skip")%string then
    match current_state t with
    | WORK => after_complete_work now t
    | SHORT_BREAK | LONG_BREAK => after_start_work now t
    | _ => t
    end
  else if (command =? "reset")%string then after_reset t
  else if (command =? "restart_cycle")%string then after_restart_cycle now t
  else t.

Definition rows_command (command : string) (now : Z) (t : PomodoroTimer)
  : list SessionRecord :=
  if (command =? "start")%string then []
  else if (command =? "pause")%string then
    if active (current_state t) then logged_rows t false now else []
  else if (command =? "resume")%string then []
  else if (command =? "skip")%string then
    match current_state t with
    | WORK => logged_rows t false now ++ logged_rows t false now
    | SHORT_BREAK | LONG_BREAK => logged_rows t false now
    | _ => []
    end
  else if (command =? "reset")%string then
    match current_state t with
    | IDLE => []
    | _ => logged_rows t false now
    end
  else if (command =? "restart_cycle")%string then
    match current_state t with
    | IDLE => []
    | _ => logged_rows t false now
    end
  else [].

Definition after_tick (now : Z) (t : PomodoroTimer) : PomodoroTimer :=
  if active (current_state t) then
    if time_remaining_seconds t >? 0
    then set_time_remaining_seconds (time_remaining_seconds t - 1) t
    else if state_eqb (current_state t) WORK
         then after_complete_work now t
         else after_start_work now t
  else t.

Definition rows_tick (now : Z) (t : PomodoroTimer) : list SessionRecord :=
  if active (current_state t) && negb (time_remaining_seconds t >? 0)
  then logged_rows t true now
  else [].

Definition after_event (e : Event) (t : PomodoroTimer) : PomodoroTimer :=
  match e with
  | Command command now => after_command command now t
  | Tick now => after_tick now t
  end.

Definition rows_event (e : Event) (t : PomodoroTimer) : list SessionRecord :=
  match e with
  | Command command now => rows_command command now t
  | Tick now => rows_tick now t
  end.

(** ** Invariants of the reachable states *)

(** [paused_state] is assigned whenever the timer is paused, and only ever
    holds a phase that was running. *)
Definition paused_ok (t : PomodoroTimer) : Prop :=
  (current_state t = PAUSED -> paused_state t <> None) /\
  (forall p, paused_state t = Some p -> active p = true).

(** A start timestamp is recorded exactly while the timer is not idle. *)
Definition timestamp_ok (t : PomodoroTimer) : Prop :=
  current_state t = IDLE <-> session_start_timestamp t = None.

Definition Inv (t : PomodoroTimer) : Prop :=
  paused_ok t /\ timestamp_ok t /\ 0 <= pomodoros_completed_in_cycle t.

(** Durations a countdown can start from. *)
Definition durations_ok (cfg : Config) : Prop :=
  0 <= work_duration_minutes cfg /\
  0 <= short_break_duration_minutes cfg /\
  0 <= long_break_duration_minutes cfg.

(** An event that ends a Work session and advances to a break: the [skip]
    command, or a loop iteration that finds nothing left to count down. *)
Definition work_exit (e : Event) (t : PomodoroTimer) : bool :=
  state_eqb (current_state t) WORK &&
  match e with
  | Command command _ => (command =? "skip")%string
  | Tick _ => negb (time_remaining_seconds t >? 0)
  end.

Definition is_restart_cycle (e : Event) : bool :=
  match e with
  | Command command _ => (command =? "restart_cycle")%string
  | Tick _ => false
  end.

(** The countdown and its paused copy are never negative. *)
Definition time_ok (t : PomodoroTimer) : Prop :=
  0 <= time_remaining_seconds t /\ 0 <= paused_time_remaining t.

(** ** The status file as a projection of the timer *)

(** The message [_write_status] builds. *)
Definition status_message_of (t : PomodoroTimer) : string :=
  let time_string :=
    (format_02d (time_remaining_seconds t / 60) ++ ":" ++
     format_02d (time_remaining_seconds t mod 60))%string in
  match current_state t with
  | WORK => ("Work: " ++ time_string)%string
  | SHORT_BREAK => ("Break: " ++ time_string)%string
  | LONG_BREAK => ("Long Break: " ++ time_string)%string
  | PAUSED =>
      match paused_state t with
      | Some WORK => ("Paused Work: " ++ time_string)%string
      | Some SHORT_BREAK => ("Paused Break: " ++ time_string)%string
      | Some LONG_BREAK => ("Paused Long Break: " ++ time_string)%string
      | _ => EmptyString
      end
  | IDLE => "Ready"%string
  end.

(** The document [_write_status] writes for a timer. *)
Definition status_of (t : PomodoroTimer) : Status :=
  {| status_state := state_map (current_state t);
     status_time_remaining := time_remaining_seconds t;
     status_pomodoros_completed := pomodoros_completed_in_cycle t;
     status_total_pomodoros_for_long_break :=
       pomodoros_before_long_break (config t);
     status_message := status_message_of t |}.

(** The events whose handling ends with a status write. *)
Definition writes_status (e : Event) (t : PomodoroTimer) : bool :=
  match e with
  | Command command _ =>
      if (command =? "start")%string then
        state_in (current_state t) [IDLE; PAUSED]
      else if (command =? "pause")%string then active (current_state t)
      else if (command =? "resume")%string then
        state_eqb (current_state t) PAUSED
      else if (command =? "skip")%string then
        match current_state t with
        | WORK => negb (pomodoros_before_long_break (config t) =? 0)
        | SHORT_BREAK | LONG_BREAK => true
        | _ => false
        end
      else if (command =? "reset")%string then true
      else if (command =? "restart_cycle")%string then true
      else if (command =? "get_status")%string then true
      else false
  | Tick _ =>
      if active (current_state t) then
        if time_remaining_seconds t >? 0
        then (time_remaining_seconds t - 1) mod 5 =? 0
        else if state_eqb (current_state t) WORK
             then negb (pomodoros_before_long_break (config t) =? 0)
             else true
      else false
  end.

(** What the status file is allowed to lag behind: nothing but the seconds
    counted down since the last multiple of 5 (and the counter, when a zero
    threshold makes [_complete_work_session] raise before it starts a
    break). *)
Definition status_ok (w : World) : Prop :=
  match status_file w with
  | None =>
      current_state (timer w) = IDLE /\
      time_remaining_seconds (timer w) = 0
  | Some s =>
      status_state s = state_map (current_state (timer w)) /\
      time_remaining_seconds (timer w) <= status_time_remaining s /\
      (forall k, time_remaining_seconds (timer w) <= k
                 < status_time_remaining s -> k mod 5 <> 0) /\
      status_total_pomodoros_for_long_break s =
        pomodoros_before_long_break (config (timer w)) /\
      (pomodoros_before_long_break (config (timer w)) <> 0 ->
       status_pomodoros_completed s =
         pomodoros_completed_in_cycle (timer w))
  end.

(** A well-formed row of table [sessions]. *)
Definition row_ok (r : SessionRecord) : Prop :=
  In (session_type r) ["work"; "short_break"; "long_break"]%string /\
  duration_actual_seconds r = end_time r - start_time r.

(** A result that [except Exception] handles: anything but [SystemExit]. *)
Definition catchable {A} (r : Result A) : Prop :=
  match r with
  | Raise e => is_Exception e = true
  | Return _ => True
  end.

(** A method that never exits the process. *)
Definition no_exit {A} (m : M A) : Prop :=
  forall w, catchable (fst (m w)).

(** Weakest preconditions: [wp m w Q] says that [Q] holds of the result and
    of the world that [m] leaves when started in [w]. *)
Definition wp {A} (m : M A) (w : World) (Q : Result A -> World -> Prop) : Prop :=
  Q (fst (m w)) (snd (m w)).

(** ** Reasoning rules *)

Section Rules.
Context {A B : Type}.

Lemma wp_ret (a : A) w Q : Q (Return a) w -> wp (ret a) w Q.
Proof. exact (fun H => H). Qed.

Lemma wp_bind (m : M A) (k : A -> M B) w Q :
  wp m w (fun r w' =>
            match r with
            | Return a => wp (k a) w' Q
            | Raise e => Q (Raise e) w'
            end) ->
  wp (bind m k) w Q.
Proof.
  unfold wp, bind. destruct (m w) as [[a | e] w']; simpl; auto.
Qed.

Lemma wp_self (k : PomodoroTimer -> M B) w Q :
  wp (k (timer w)) w Q -> wp (bind self k) w Q.
Proof. exact (fun H => H). Qed.

Lemma wp_assign f (k : unit -> M B) w Q :
  wp (k tt) (with_timer (f (timer w)) w) Q -> wp (bind (assign f) k) w Q.
Proof. exact (fun H => H). Qed.

Lemma wp_logger lvl msg (k : unit -> M B) w Q :
  wp (k tt) (with_log (log w ++ [(lvl, msg)]) w) Q ->
  wp (bind (logger lvl msg) k) w Q.
Proof. exact (fun H => H). Qed.
End Rules.

Lemma wp_try_except body handler w Q :
  wp body w (fun r w' =>
               match r with
               | Return a => Q (Return a) w'
               | Raise e =>
                   if is_Exception e then wp (handler e) w' Q
                   else Q (Raise e) w'
               end) ->
  wp (try_except body handler) w Q.
Proof.
  unfold wp, try_except. destruct (body w) as [[a | e] w']; simpl; auto.
  destruct (is_Exception e); auto.
Qed.

Lemma wp_logger_last lvl msg w (Q : Result unit -> World -> Prop) :
  Q (Return tt) (with_log (log w ++ [(lvl, msg)]) w) ->
  wp (logger lvl msg) w Q.
Proof. exact (fun H => H). Qed.

(** ** What each method does to the timer and to the session table *)

Lemma state_eqb_eq a b : state_eqb a b = true <-> a = b.
Proof. destruct a, b; simpl; split; congruence. Qed.

Lemma write_status_spec w Q :
  (forall w', timer w' = timer w -> sessions w' = sessions w ->
              Q (Return tt) w') ->
  wp _write_status w Q.
Proof.
  intros HQ. unfold _write_status. apply wp_try_except, wp_self, wp_bind.
  destruct (current_state (timer w)); try (apply HQ; reflexivity).
  apply wp_bind. unfold wp, get_paused_state.
  destruct (paused_state (timer w)) as [[]|]; simpl; apply HQ; reflexivity.
Qed.

Lemma log_session_spec completed now w Q :
  (current_state (timer w) = PAUSED -> paused_state (timer w) <> None) ->
  (forall w', timer w' = timer w ->
              sessions w' = sessions w ++ logged_rows (timer w) completed now ->
              Q (Return tt) w') ->
  wp (_log_session completed now) w Q.
Proof.
  intros Hp. unfold _log_session, logged_rows, logged_state.
  destruct (session_start_timestamp (timer w)) as [started|] eqn:Ets;
    intros HQ; apply wp_self; rewrite Ets.
  2:{ apply HQ; [reflexivity | symmetry; apply app_nil_r]. }
  apply wp_bind. revert HQ.
  destruct (current_state (timer w)) eqn:Ecs; simpl; intros HQ;
    try (apply HQ; simpl; [reflexivity | now rewrite ?app_nil_r]).
  unfold wp, get_paused_state. revert HQ.
  destruct (paused_state (timer w)) as [p|]; [| now destruct Hp].
  destruct p; simpl; intros HQ; apply HQ; simpl; now rewrite ?app_nil_r.
Qed.

Lemma start_work_session_spec now w Q :
  (forall w', timer w' = after_start_work now (timer w) ->
              sessions w' = sessions w -> Q (Return tt) w') ->
  wp (_start_work_session now) w Q.
Proof.
  intros HQ. unfold _start_work_session.
  apply wp_assign, wp_self, wp_assign, wp_assign, wp_bind, write_status_spec.
  intros w' Ht Hs. apply wp_logger_last, HQ; simpl; assumption.
Qed.

Lemma start_break_spec is_long_break now w Q :
  (forall w', timer w' = after_start_break is_long_break now (timer w) ->
              sessions w' = sessions w -> Q (Return tt) w') ->
  wp (_start_break is_long_break now) w Q.
Proof.
  intros HQ. unfold _start_break. apply wp_bind.
  destruct is_long_break;
    apply wp_assign, wp_self, wp_assign, wp_logger_last, wp_assign,
      write_status_spec;
    intros w' Ht Hs; apply HQ; simpl; assumption.
Qed.

(** Projections of updated worlds and timers, and nothing else. *)
Ltac wsimpl :=
  cbn [timer sessions status_file log notifications sounds
       with_timer with_sessions with_status_file with_log with_notifications
       with_sounds fst snd ret raise exec outcome
       config current_state time_remaining_seconds pomodoros_completed_in_cycle
       session_start_timestamp paused_state paused_time_remaining running
       set_current_state set_time_remaining_seconds
       set_pomodoros_completed_in_cycle set_session_start_timestamp
       set_paused_state set_paused_time_remaining set_running] in *.

Lemma send_notification_spec {B} title body (k : unit -> M B) w Q :
  (forall w', timer w' = timer w -> sessions w' = sessions w ->
              wp (k tt) w' Q) ->
  wp (bind (_send_notification title body) k) w Q.
Proof. intros H. apply wp_bind. apply H; reflexivity. Qed.

Lemma play_sound_spec {B} (cond : bool) path (k : unit -> M B) w Q :
  (forall w', timer w' = timer w -> sessions w' = sessions w ->
              wp (k tt) w' Q) ->
  wp (bind (if cond then _play_sound path else ret tt) k) w Q.
Proof. intros H. apply wp_bind. destruct cond; apply H; reflexivity. Qed.

Lemma logged_rows_after_pause t completed now :
  active (current_state t) = true ->
  logged_rows (after_pause t) completed now = logged_rows t completed now.
Proof.
  unfold logged_rows, logged_state, after_pause. wsimpl.
  destruct (current_state t); cbv [active state_in existsb state_eqb orb];
    intros H; try discriminate; reflexivity.
Qed.

Lemma pause_spec now w Q :
  active (current_state (timer w)) = true ->
  (forall w', timer w' = after_pause (timer w) ->
              sessions w' = sessions w ++ logged_rows (timer w) false now ->
              Q (Return tt) w') ->
  wp (_pause now) w Q.
Proof.
  intros Ha HQ. unfold _pause. apply wp_self.
  replace (negb (state_eqb (current_state (timer w)) PAUSED)) with true
    by (revert Ha; destruct (current_state (timer w)); cbv; congruence).
  apply wp_assign, wp_assign, wp_assign, wp_bind, log_session_spec;
    wsimpl; [discriminate |].
  intros w1 Ht1 Hs1. apply wp_bind, write_status_spec.
  intros w2 Ht2 Hs2. apply wp_logger_last, HQ; wsimpl.
  - rewrite Ht2, Ht1. reflexivity.
  - rewrite Hs2, Hs1. f_equal. now apply logged_rows_after_pause.
Qed.

Lemma resume_spec now w Q :
  current_state (timer w) = PAUSED ->
  paused_state (timer w) <> None ->
  (forall w', timer w' = after_resume now (timer w) ->
              sessions w' = sessions w -> Q (Return tt) w') ->
  wp (_resume now) w Q.
Proof.
  intros Hc Hp HQ. unfold _resume. apply wp_self. rewrite Hc. simpl.
  apply wp_bind. unfold wp at 1, get_paused_state.
  unfold after_resume, logged_state in HQ. rewrite Hc in HQ.
  destruct (paused_state (timer w)) as [p|]; [| now destruct Hp]. simpl.
  apply wp_assign, wp_assign, wp_assign, wp_bind, write_status_spec.
  intros w1 Ht1 Hs1. apply wp_logger_last, HQ; wsimpl; assumption.
Qed.

Lemma complete_work_session_spec was_skipped now w Q :
  current_state (timer w) <> PAUSED ->
  (forall w', timer w' = after_complete_work now (timer w) ->
              sessions w' =
                sessions w ++ logged_rows (timer w) (negb was_skipped) now ->
              Q (if pomodoros_before_long_break (config (timer w)) =? 0
                 then Raise ZeroDivisionError else Return tt) w') ->
  wp (_complete_work_session was_skipped now) w Q.
Proof.
  intros Hc HQ. unfold _complete_work_session.
  apply wp_bind, log_session_spec; [tauto |].
  intros w1 Ht1 Hs1. apply wp_self, wp_assign, send_notification_spec.
  intros w2 Ht2 Hs2. apply wp_self, play_sound_spec.
  intros w3 Ht3 Hs3. apply wp_bind.
  rewrite Ht2, Ht1 in *. wsimpl.
  unfold after_complete_work in HQ. revert HQ.
  unfold py_mod.
  destruct (pomodoros_before_long_break (config (timer w)) =? 0); intros HQ.
  - apply HQ; wsimpl; congruence.
  - unfold wp at 1. wsimpl.
    destruct (_ =? 0); apply start_break_spec; intros w4 Ht4 Hs4;
      apply HQ; congruence.
Qed.

Lemma complete_break_session_spec was_skipped now w Q :
  current_state (timer w) <> PAUSED ->
  (forall w', timer w' = after_start_work now (timer w) ->
              sessions w' =
                sessions w ++ logged_rows (timer w) (negb was_skipped) now ->
              Q (Return tt) w') ->
  wp (_complete_break_session was_skipped now) w Q.
Proof.
  intros Hc HQ. unfold _complete_break_session.
  apply wp_bind, log_session_spec; [tauto |].
  intros w1 Ht1 Hs1. apply send_notification_spec.
  intros w2 Ht2 Hs2. apply wp_self, play_sound_spec.
  intros w3 Ht3 Hs3. apply start_work_session_spec.
  intros w4 Ht4 Hs4. apply HQ; congruence.
Qed.

Lemma skip_current_phase_spec now w Q :
  active (current_state (timer w)) = true ->
  (forall w',
      timer w' = (if state_eqb (current_state (timer w)) WORK
                  then after_complete_work now (timer w)
                  else after_start_work now (timer w)) ->
      sessions w' =
        sessions w ++ logged_rows (timer w) false now ++
          (if state_eqb (current_state (timer w)) WORK
           then logged_rows (timer w) false now else []) ->
      Q (if state_eqb (current_state (timer w)) WORK &&
            (pomodoros_before_long_break (config (timer w)) =? 0)
         then Raise ZeroDivisionError else Return tt) w') ->
  wp (_skip_current_phase now) w Q.
Proof.
  intros Ha HQ.
  assert (Hc : current_state (timer w) <> PAUSED)
    by (intros E; rewrite E in Ha; discriminate).
  unfold _skip_current_phase.
  apply wp_bind, log_session_spec; [tauto |].
  intros w1 Ht1 Hs1. apply wp_self, wp_bind. rewrite Ht1. revert HQ.
  destruct (state_eqb (current_state (timer w)) WORK); intros HQ.
  - apply complete_work_session_spec; [congruence |].
    intros w2 Ht2 Hs2. rewrite Ht1 in *. revert HQ. simpl andb.
    destruct (pomodoros_before_long_break (config (timer w)) =? 0);
      intros HQ.
    + apply HQ; [assumption |]. rewrite Hs2, Hs1, <- app_assoc. reflexivity.
    + apply wp_logger_last, HQ; wsimpl; [assumption |].
      rewrite Hs2, Hs1, <- app_assoc. reflexivity.
  - apply start_work_session_spec. intros w2 Ht2 Hs2.
    apply wp_logger_last, HQ; wsimpl; [congruence |].
    rewrite Hs2, Hs1, app_nil_r. reflexivity.
Qed.

Lemma reset_spec now w Q :
  (current_state (timer w) = PAUSED -> paused_state (timer w) <> None) ->
  (forall w',
      timer w' = after_reset (timer w) ->
      sessions w' =
        sessions w ++ (if state_eqb (current_state (timer w)) IDLE
                       then [] else logged_rows (timer w) false now) ->
      Q (Return tt) w') ->
  wp (_reset now) w Q.
Proof.
  intros Hp HQ. unfold _reset. apply wp_self, wp_bind. revert HQ.
  destruct (state_eqb (current_state (timer w)) IDLE); simpl negb; intros HQ.
  - unfold wp at 1. wsimpl.
    apply wp_assign, wp_assign, wp_assign, wp_bind, write_status_spec.
    intros w1 Ht1 Hs1. apply wp_logger_last, HQ; wsimpl.
    + rewrite Ht1. reflexivity.
    + rewrite Hs1, app_nil_r. reflexivity.
  - apply log_session_spec; [assumption |]. intros w0 Ht0 Hs0.
    apply wp_assign, wp_assign, wp_assign, wp_bind, write_status_spec.
    intros w1 Ht1 Hs1. apply wp_logger_last, HQ; wsimpl.
    + rewrite Ht1, Ht0. reflexivity.
    + rewrite Hs1. assumption.
Qed.

Lemma restart_cycle_spec now w Q :
  (current_state (timer w) = PAUSED -> paused_state (timer w) <> None) ->
  (forall w',
      timer w' = after_restart_cycle now (timer w) ->
      sessions w' =
        sessions w ++ (if state_eqb (current_state (timer w)) IDLE
                       then [] else logged_rows (timer w) false now) ->
      Q (Return tt) w') ->
  wp (_restart_cycle now) w Q.
Proof.
  intros Hp HQ. unfold _restart_cycle. apply wp_self, wp_bind. revert HQ.
  destruct (state_eqb (current_state (timer w)) IDLE); simpl negb; intros HQ.
  - unfold wp at 1. wsimpl.
    apply wp_assign, wp_bind, start_work_session_spec.
    intros w1 Ht1 Hs1. apply wp_logger_last, HQ; wsimpl.
    + rewrite Ht1. reflexivity.
    + rewrite Hs1, app_nil_r. reflexivity.
  - apply log_session_spec; [assumption |]. intros w0 Ht0 Hs0.
    apply wp_assign, wp_bind, start_work_session_spec.
    intros w1 Ht1 Hs1. apply wp_logger_last, HQ; wsimpl.
    + rewrite Ht1, Ht0. reflexivity.
    + rewrite Hs1. assumption.
Qed.

(** A branch of the source that does nothing. *)
Ltac wp_nothing HQ :=
  lazymatch goal with
  | |- wp (ret tt) _ _ =>
      apply wp_ret, HQ; [reflexivity | symmetry; apply app_nil_r]
  end.

(** [_process_command], whatever way it returns. *)
Lemma process_command_spec command now w Q :
  (current_state (timer w) = PAUSED -> paused_state (timer w) <> None) ->
  (forall r w',
      timer w' = after_command command now (timer w) ->
      sessions w' = sessions w ++ rows_command command now (timer w) ->
      Q r w') ->
  wp (_process_command command now) w Q.
Proof.
  intros Hp. unfold _process_command, after_command, rows_command.
  destruct (command =? "start")%string.
  { intros HQ. apply wp_self. revert HQ.
    destruct (current_state (timer w)) eqn:Ecs;
      cbn [state_in existsb state_eqb orb]; intros HQ;
      try (wp_nothing HQ).
    - apply start_work_session_spec. intros w' Ht Hs. apply HQ; [assumption |].
      now rewrite app_nil_r.
    - apply resume_spec; auto. intros w' Ht Hs. apply HQ; [assumption |].
      now rewrite app_nil_r. }
  destruct (command =? "pause")%string.
  { intros HQ. apply wp_self. revert HQ. fold (active (current_state (timer w))).
    destruct (active (current_state (timer w))) eqn:Ea; intros HQ.
    - apply pause_spec; auto.
    - wp_nothing HQ. }
  destruct (command =? "resume")%string.
  { intros HQ. apply wp_self. revert HQ.
    destruct (current_state (timer w)) eqn:Ecs;
      cbn [state_in existsb state_eqb orb]; intros HQ;
      try (wp_nothing HQ).
    apply resume_spec; auto. intros w' Ht Hs. apply HQ; [assumption |].
    now rewrite app_nil_r. }
  destruct (command =? "skip")%string.
  { intros HQ. apply wp_self. revert HQ.
    destruct (current_state (timer w)) eqn:Ecs;
      cbn [state_in existsb state_eqb orb]; intros HQ;
      try (wp_nothing HQ);
      apply skip_current_phase_spec; rewrite ?Ecs; try reflexivity;
      cbn [state_eqb andb app];
      intros w' Ht Hs; apply HQ; rewrite ?app_nil_r in Hs; assumption. }
  destruct (command =? "reset")%string.
  { intros HQ. apply reset_spec; [assumption |]. intros w' Ht Hs.
    apply HQ; [assumption |]. rewrite Hs.
    destruct (current_state (timer w)); reflexivity. }
  destruct (command =? "restart_cycle")%string.
  { intros HQ. apply restart_cycle_spec; [assumption |]. intros w' Ht Hs.
    apply HQ; [assumption |]. rewrite Hs.
    destruct (current_state (timer w)); reflexivity. }
  destruct (command =? "get_status")%string.
  { intros HQ. apply write_status_spec. intros w' Ht Hs.
    apply HQ; [assumption |]. now rewrite app_nil_r. }
  intros HQ. apply wp_logger_last, HQ; wsimpl;
    [reflexivity | symmetry; apply app_nil_r].
Qed.

Lemma nonempty_false s : nonempty s = false -> s = EmptyString.
Proof. destruct s; [reflexivity | discriminate]. Qed.

Lemma command_listener_spec command now w :
  (current_state (timer w) = PAUSED -> paused_state (timer w) <> None) ->
  timer (exec (_command_listener command now) w)
    = after_command command now (timer w) /\
  sessions (exec (_command_listener command now) w)
    = sessions w ++ rows_command command now (timer w).
Proof.
  intros Hp.
  change (wp (_command_listener command now) w
            (fun _ w' =>
               timer w' = after_command command now (timer w) /\
               sessions w' = sessions w ++ rows_command command now (timer w))).
  unfold _command_listener. apply wp_try_except.
  destruct (nonempty command) eqn:En.
  - apply wp_logger, process_command_spec; [exact Hp |].
    intros [[] | e] w' Ht Hs; [now split |].
    destruct (is_Exception e); [apply wp_logger_last; wsimpl |]; now split.
  - apply nonempty_false in En. subst command.
    unfold wp. wsimpl. split; [reflexivity | symmetry; apply app_nil_r].
Qed.

Lemma run_iteration_spec now w :
  timer (exec (run_iteration now) w) = after_tick now (timer w) /\
  sessions (exec (run_iteration now) w) = sessions w ++ rows_tick now (timer w).
Proof.
  change (wp (run_iteration now) w
            (fun _ w' =>
               timer w' = after_tick now (timer w) /\
               sessions w' = sessions w ++ rows_tick now (timer w))).
  unfold run_iteration, after_tick, rows_tick.
  apply wp_try_except, wp_self.
  destruct (current_state (timer w)) eqn:Ecs; cbv [active state_in existsb
    state_eqb orb negb andb];
    try (unfold wp; wsimpl; split; [reflexivity | symmetry; apply app_nil_r]).
  all: destruct (time_remaining_seconds (timer w) >? 0) eqn:Etr.
  all: try (apply wp_assign, wp_self; wsimpl;
            match goal with
            | |- context [?x mod 5 =? 0] => destruct (x mod 5 =? 0)
            end;
            [apply write_status_spec; intros w' Ht Hs; rewrite Ht, Hs
            | unfold wp]; wsimpl;
            (split; [reflexivity | symmetry; apply app_nil_r])).
  - apply complete_work_session_spec; [congruence |]. intros w' Ht Hs.
    destruct (_ =? 0); [apply wp_logger_last; wsimpl |]; now split.
  - apply complete_break_session_spec; [congruence |]. intros w' Ht Hs.
    now split.
  - apply complete_break_session_spec; [congruence |]. intros w' Ht Hs.
    now split.
Qed.

(** Every event acts on the timer and the session table as summarised. *)
Lemma handle_spec w e :
  (current_state (timer w) = PAUSED -> paused_state (timer w) <> None) ->
  timer (handle w e) = after_event e (timer w) /\
  sessions (handle w e) = sessions w ++ rows_event e (timer w).
Proof.
  intros Hp. destruct e as [command now | now]; simpl.
  - now apply command_listener_spec.
  - apply run_iteration_spec.
Qed.

(** ** The invariants hold in every reachable state *)

Ltac by_cases :=
  cbv [active state_in existsb state_eqb orb negb andb logged_state type_map]
    in *.

Lemma active_cases s :
  active s = true <-> s = WORK \/ s = SHORT_BREAK \/ s = LONG_BREAK.
Proof.
  destruct s; by_cases; split; intros H; try discriminate; auto;
    destruct H as [H | [H | H]]; discriminate.
Qed.

Ltac inv_crush :=
  unfold Inv, paused_ok, timestamp_ok; wsimpl;
  intuition (try discriminate; try congruence; try lia).

Lemma Inv_start_work now t : Inv t -> Inv (after_start_work now t).
Proof. unfold after_start_work. inv_crush. Qed.

Lemma Inv_start_break b now t : Inv t -> Inv (after_start_break b now t).
Proof. unfold after_start_break. destruct b; inv_crush. Qed.

Lemma Inv_complete_work now t :
  current_state t = WORK -> Inv t -> Inv (after_complete_work now t).
Proof.
  intros Hc H. unfold after_complete_work.
  destruct (_ =? 0).
  - revert H. inv_crush.
  - apply Inv_start_break. revert H. inv_crush.
Qed.

Lemma Inv_pause t : active (current_state t) = true -> Inv t -> Inv (after_pause t).
Proof.
  intros Ha. apply active_cases in Ha as Hc. unfold after_pause. inv_crush.
Qed.

Lemma Inv_resume now t :
  current_state t = PAUSED -> Inv t -> Inv (after_resume now t).
Proof.
  intros Hc (Hp & Hts & Hpc). unfold after_resume, logged_state. rewrite Hc.
  destruct Hp as [Hp1 Hp2].
  destruct (paused_state t) as [p|] eqn:Ep; [| now destruct Hp1].
  specialize (Hp2 p eq_refl). apply active_cases in Hp2.
  revert Hts Hpc. unfold Inv, paused_ok, timestamp_ok; wsimpl. rewrite Ep.
  intros Hts Hpc. repeat split; try discriminate; try assumption.
  - intros q Eq. injection Eq as <-. apply active_cases. assumption.
  - intros E. subst p. intuition discriminate.
Qed.

Lemma Inv_reset t : Inv t -> Inv (after_reset t).
Proof. unfold after_reset. inv_crush. Qed.

Lemma Inv_restart_cycle now t : Inv t -> Inv (after_restart_cycle now t).
Proof.
  intros H. unfold after_restart_cycle. apply Inv_start_work.
  revert H. inv_crush.
Qed.

Lemma Inv_after_event e t : Inv t -> Inv (after_event e t).
Proof.
  intros H. destruct e as [command now | now]; simpl.
  - unfold after_command.
    repeat match goal with
           | |- context [(command =? ?s)%string] =>
               destruct (command =? s)%string
           end;
      try assumption;
      auto using Inv_reset, Inv_restart_cycle.
    + destruct (current_state t) eqn:Ec;
        auto using Inv_start_work, Inv_resume.
    + destruct (active (current_state t)) eqn:Ea; auto using Inv_pause.
    + destruct (current_state t) eqn:Ec; auto using Inv_resume.
    + destruct (current_state t) eqn:Ec;
        auto using Inv_start_work, Inv_complete_work.
  - unfold after_tick.
    destruct (active (current_state t)) eqn:Ea; [| assumption].
    destruct (time_remaining_seconds t >? 0).
    + revert H. inv_crush.
    + destruct (state_eqb (current_state t) WORK) eqn:Ew.
      * apply state_eqb_eq in Ew. auto using Inv_complete_work.
      * auto using Inv_start_work.
Qed.

Lemma Inv_init cfg : Inv (timer (init cfg)).
Proof. inv_crush. Qed.

Lemma Reachable_Inv cfg w : Reachable cfg w -> Inv (timer w).
Proof.
  induction 1 as [| w e _ IH].
  - apply Inv_init.
  - destruct (handle_spec w e) as [-> _]; [apply IH |].
    now apply Inv_after_event.
Qed.

(** The configuration is never assigned. *)
Lemma config_after_event e t : config (after_event e t) = config t.
Proof.
  destruct e as [command now | now]; simpl.
  - unfold after_command, after_complete_work, after_start_break.
    repeat match goal with
           | |- context [if ?b then _ else _] => destruct b
           end;
      try reflexivity; destruct (current_state t); try reflexivity;
      wsimpl;
      repeat match goal with
             | |- context [if ?b then _ else _] => destruct b
             end; reflexivity.
  - unfold after_tick, after_complete_work, after_start_break.
    repeat match goal with
           | |- context [if ?b then _ else _] => destruct b
           end; reflexivity.
Qed.

Lemma Reachable_config cfg w : Reachable cfg w -> config (timer w) = cfg.
Proof.
  induction 1 as [| w e Hr IH]; [reflexivity |].
  destruct (handle_spec w e) as [-> _].
  - apply (Reachable_Inv cfg w Hr).
  - now rewrite config_after_event.
Qed.

Lemma Reachable_paused_state_set cfg w :
  Reachable cfg w ->
  current_state (timer w) = PAUSED -> paused_state (timer w) <> None.
Proof. intros H. apply (Reachable_Inv cfg w H). Qed.

Lemma time_ok_after_event e t :
  durations_ok (config t) -> time_ok t -> time_ok (after_event e t).
Proof.
  unfold durations_ok, time_ok. intros (Hw & Hs & Hl) (Htr & Hptr).
  destruct e as [command now | now]; simpl.
  - unfold after_command, after_restart_cycle, after_complete_work,
      after_start_break, after_start_work, after_pause, after_resume,
      after_reset.
    repeat match goal with
           | |- context [if ?b then _ else _] => destruct b
           end;
      try (destruct (current_state t));
      repeat match goal with
             | |- context [if ?b then _ else _] => destruct b
             end;
      wsimpl; split; lia.
  - unfold after_tick, after_complete_work, after_start_break,
      after_start_work.
    destruct (time_remaining_seconds t >? 0) eqn:Etr;
      repeat match goal with
             | |- context [if ?b then _ else _] => destruct b
             end;
      wsimpl; split; lia.
Qed.

Lemma Reachable_time_ok cfg w :
  durations_ok cfg -> Reachable cfg w -> time_ok (timer w).
Proof.
  intros Hd. induction 1 as [| w e Hr IH].
  - unfold time_ok. simpl. lia.
  - destruct (handle_spec w e) as [-> _].
    + now apply (Reachable_paused_state_set cfg).
    + apply time_ok_after_event; [| assumption].
      now rewrite (Reachable_config cfg w Hr).
Qed.

(** While idle or paused an iteration of the loop only sleeps. *)
Lemma tick_not_active now w :
  active (current_state (timer w)) = false -> handle w (Tick now) = w.
Proof.
  unfold handle, exec, run_iteration, try_except, bind, self.
  destruct (current_state (timer w)); by_cases; intros H;
    try discriminate; reflexivity.
Qed.

Lemma ticks_not_active clock w :
  active (current_state (timer w)) = false ->
  handle_all w (map Tick clock) = w.
Proof.
  intros H. unfold handle_all.
  induction clock as [| now clock IH]; cbn [map fold_left]; [reflexivity |].
  rewrite tick_not_active; assumption.
Qed.

Lemma handle_exit_spec signum now w :
  outcome (_handle_exit signum now) w = Raise (SystemExit 0) /\
  timer (exec (_handle_exit signum now) w) = set_running false (timer w) /\
  sessions (exec (_handle_exit signum now) w) =
    sessions w ++ (if active (current_state (timer w))
                   then logged_rows (timer w) false now else []).
Proof.
  change (wp (_handle_exit signum now) w
            (fun r w' =>
               r = Raise (SystemExit 0) /\
               timer w' = set_running false (timer w) /\
               sessions w' =
                 sessions w ++ (if active (current_state (timer w))
                                then logged_rows (timer w) false now else []))).
  unfold _handle_exit. apply wp_logger, wp_self, wp_bind. wsimpl.
  destruct (current_state (timer w)) eqn:Ecs; by_cases.
  1,5: unfold wp at 1; wsimpl; apply wp_assign; unfold wp; wsimpl;
    rewrite app_nil_r; auto.
  all: apply log_session_spec; wsimpl; [congruence |];
    intros w' Ht Hs; apply wp_assign; unfold wp; wsimpl;
    rewrite Ht, Hs; unfold logged_rows, logged_state; wsimpl; rewrite Ecs;
    auto.
Qed.

(** In a running phase with a start timestamp, [_log_session] inserts
    exactly one row. *)
Lemma logged_rows_active t flag now :
  active (current_state t) = true ->
  session_start_timestamp t <> None ->
  exists r, logged_rows t flag now = [r] /\ completed r = flag.
Proof.
  unfold logged_rows, logged_state. intros Ha Hts.
  destruct (session_start_timestamp t) as [started|]; [| congruence].
  destruct (current_state t); by_cases; try discriminate;
    eexists; split; reflexivity.
Qed.

(** ** The main loop is a sequence of [Tick] events *)

(** An iteration never lets an exception escape. *)
Lemma run_iteration_returns now w :
  outcome (run_iteration now) w = Return tt.
Proof.
  change (wp (run_iteration now) w (fun r _ => r = Return tt)).
  unfold run_iteration. apply wp_try_except, wp_self.
  destruct (current_state (timer w)) eqn:Ecs;
    cbn [state_in existsb state_eqb orb negb]; try reflexivity.
  all: destruct (time_remaining_seconds (timer w) >? 0).
  all: try (apply wp_assign, wp_self; wsimpl;
            match goal with
            | |- context [?x mod 5 =? 0] => destruct (x mod 5 =? 0)
            end;
            [apply write_status_spec; intros w' Ht Hs | unfold wp];
            reflexivity).
  - apply complete_work_session_spec; [congruence |]. intros w' Ht Hs.
    destruct (_ =? 0); reflexivity.
  - apply complete_break_session_spec; [congruence |]. reflexivity.
  - apply complete_break_session_spec; [congruence |]. reflexivity.
Qed.

Lemma running_after_tick now t : running (after_tick now t) = running t.
Proof.
  unfold after_tick, after_complete_work, after_start_break,
    after_start_work.
  repeat match goal with
         | |- context [if ?b then _ else _] => destruct b
         end; reflexivity.
Qed.

Lemma run_loop_as_ticks clock : forall w,
  running (timer w) = true ->
  run_loop clock w = (Return still_looping, handle_all w (map Tick clock)).
Proof.
  unfold handle_all.
  induction clock as [| now clock IH]; intros w Hrun.
  - cbn [run_loop map fold_left]. unfold bind, self. rewrite Hrun.
    reflexivity.
  - cbn [run_loop map fold_left]. unfold bind at 1, self. rewrite Hrun.
    unfold bind. pose proof (run_iteration_returns now w) as Hret.
    unfold outcome in Hret. unfold handle at 2, exec.
    destruct (run_iteration now w) as [r w1] eqn:E. simpl in Hret. subst r.
    cbn [snd]. apply IH.
    replace w1 with (exec (run_iteration now) w)
      by (unfold exec; now rewrite E).
    destruct (run_iteration_spec now w) as [-> _].
    now rewrite running_after_tick.
Qed.

(** ** Properties of the engine *)

Lemma gtb_false n : n <= 0 -> (n >? 0) = false.
Proof. intros H. rewrite Z.gtb_ltb. apply Z.ltb_ge. assumption. Qed.


(** Case analysis on the verb, in the order [_process_command] tests it. *)
Ltac case_command command :=
  destruct (String.eqb_spec command "start") as [-> | ?];
  [| destruct (String.eqb_spec command "pause") as [-> | ?];
     [| destruct (String.eqb_spec command "resume") as [-> | ?];
        [| destruct (String.eqb_spec command "skip") as [-> | ?];
           [| destruct (String.eqb_spec command "reset") as [-> | ?];
              [| destruct (String.eqb_spec command "restart_cycle")
                   as [-> | ?];
                 [| destruct (String.eqb_spec command "get_status")
                      as [-> | ?]]]]]]].

Ltac case_ifs :=
  repeat match goal with
         | |- context [if ?b then _ else _] => destruct b eqn:?
         end.

Lemma counter_after_event e t :
  (current_state t = PAUSED -> paused_state t <> None) ->
  pomodoros_completed_in_cycle (after_event e t) =
    if is_restart_cycle e then 0
    else if work_exit e t then pomodoros_completed_in_cycle t + 1
         else pomodoros_completed_in_cycle t.
Proof.
  intros Hp. destruct e as [command now | now];
    unfold after_event, is_restart_cycle, work_exit.
  - unfold after_command, after_restart_cycle, after_complete_work,
      after_start_break, after_start_work, after_pause, after_resume,
      after_reset.
    case_command command; cbn [String.eqb Ascii.eqb Bool.eqb];
      destruct (current_state t); by_cases; case_ifs; reflexivity.
  - unfold after_tick, after_complete_work, after_start_break,
      after_start_work.
    destruct (current_state t); by_cases; case_ifs; reflexivity.
Qed.

(** C1 (the code departs from it): a phase exit is meant to write exactly one
    session record, but skipping a Work session writes two.  After [start]
    at clock 1000, [skip] at clock 1060 inserts the same incomplete work
    record twice, once from [_skip_current_phase] and once more from
    [_complete_work_session]. *)
Theorem skip_of_work_writes_two_records :
  let r := {| start_time := 1000; end_time := 1060;
              session_type := "work"; completed := false;
              duration_actual_seconds := 60;
              pomodoro_count_at_completion := 0 |} in
  let w := handle (init default_config) (Command "start" 1000) in
  current_state (timer w) = WORK /\
  sessions w = [] /\
  sessions (handle w (Command "skip" 1060)) = [r; r].
Proof. vm_compute. repeat split. Qed.

(** Every other way out of a running phase writes exactly one record, marked
    completed only by natural completion; skipping a break writes one,
    skipping work two; a reset while idle writes none. *)
Lemma records_per_phase_exit cfg w now :
  Reachable cfg w ->
  active (current_state (timer w)) = true ->
  exists r,
    completed r = false /\
    sessions (handle w (Command "pause" now)) = sessions w ++ [r] /\
    sessions (handle w (Command "reset" now)) = sessions w ++ [r] /\
    sessions (handle w (Command "restart_cycle" now)) = sessions w ++ [r] /\
    (forall signum,
        sessions (exec (_handle_exit signum now) w) = sessions w ++ [r]) /\
    sessions (handle w (Command "skip" now)) =
      sessions w ++ (if state_eqb (current_state (timer w)) WORK
                     then [r; r] else [r]) /\
    exists r',
      completed r' = true /\
      (time_remaining_seconds (timer w) <= 0 ->
       sessions (handle w (Tick now)) = sessions w ++ [r']).
Proof.
  intros Hr Ha.
  pose proof (Reachable_Inv cfg w Hr) as ((Hp & _) & Hts & _).
  assert (Hne : session_start_timestamp (timer w) <> None).
  { intros E. apply Hts in E. rewrite E in Ha. discriminate. }
  destruct (logged_rows_active (timer w) false now Ha Hne) as (r & Er & Hr0).
  destruct (logged_rows_active (timer w) true now Ha Hne) as (r' & Er' & Hr1).
  exists r. split; [assumption |].
  repeat split.
  - destruct (handle_spec w (Command "pause" now) Hp) as [_ ->].
    cbn [rows_event]. unfold rows_command.
    cbn [String.eqb Ascii.eqb Bool.eqb]. now rewrite Ha, Er.
  - destruct (handle_spec w (Command "reset" now) Hp) as [_ ->].
    cbn [rows_event]. unfold rows_command.
    cbn [String.eqb Ascii.eqb Bool.eqb]. rewrite Er.
    revert Ha. destruct (current_state (timer w)); by_cases;
      intros; try discriminate; reflexivity.
  - destruct (handle_spec w (Command "restart_cycle" now) Hp) as [_ ->].
    cbn [rows_event]. unfold rows_command.
    cbn [String.eqb Ascii.eqb Bool.eqb]. rewrite Er.
    revert Ha. destruct (current_state (timer w)); by_cases;
      intros; try discriminate; reflexivity.
  - intros signum.
    destruct (handle_exit_spec signum now w) as (_ & _ & ->).
    now rewrite Ha, Er.
  - destruct (handle_spec w (Command "skip" now) Hp) as [_ ->].
    cbn [rows_event]. unfold rows_command.
    cbn [String.eqb Ascii.eqb Bool.eqb]. rewrite Er.
    revert Ha. destruct (current_state (timer w)); by_cases;
      intros; try discriminate; reflexivity.
  - exists r'. split; [assumption |]. intros Htr.
    destruct (handle_spec w (Tick now) Hp) as [_ ->].
    cbn [rows_event]. unfold rows_tick. rewrite Ha, Er'.
    rewrite (gtb_false _ Htr).
    reflexivity.
Qed.

Lemma reset_while_idle_writes_nothing now w :
  current_state (timer w) = IDLE ->
  sessions (handle w (Command "reset" now)) = sessions w.
Proof.
  intros Hc.
  destruct (handle_spec w (Command "reset" now)) as [_ ->];
    [congruence |].
  cbn [rows_event]. unfold rows_command.
  cbn [String.eqb Ascii.eqb Bool.eqb]. rewrite Hc. apply app_nil_r.
Qed.

(** C2 as stated fails: the iteration that brings the countdown to 0 does not
    transition.  With the default configuration, [start] followed by 1500
    iterations leaves the timer in [WORK] with 0 seconds remaining, no session
    logged and no pomodoro counted; only the next iteration starts the
    break. *)
Lemma countdown_reaching_zero_stays_in_phase :
  let clock := map Z.of_nat (seq 1001 1500) in
  let w := handle_all (init default_config)
             (Command "start" 1000 :: map Tick clock) in
  current_state (timer w) = WORK /\
  time_remaining_seconds (timer w) = 0 /\
  pomodoros_completed_in_cycle (timer w) = 0 /\
  sessions w = [] /\
  current_state (timer (handle w (Tick 2501))) = SHORT_BREAK.
Proof. vm_compute. repeat split. Qed.

(** C2 (amended): in a running phase, an iteration that starts with 1 second
    remaining only decrements, leaving the phase running with 0 seconds
    remaining; an iteration that starts with 0 seconds remaining performs the
    natural completion itself: it logs the session and starts the next phase
    with its full duration (Work after a break; a break after Work, for
    which the long-break threshold must not be zero). *)
Theorem tick_at_zero_completes_phase w now :
  active (current_state (timer w)) = true ->
  let w' := handle w (Tick now) in
  (time_remaining_seconds (timer w) = 1 ->
   timer w' = set_time_remaining_seconds 0 (timer w) /\
   sessions w' = sessions w) /\
  (time_remaining_seconds (timer w) = 0 ->
   sessions w' = sessions w ++ logged_rows (timer w) true now /\
   (current_state (timer w) = WORK ->
    pomodoros_before_long_break (config (timer w)) <> 0 ->
    session_start_timestamp (timer w') = Some now /\
    (current_state (timer w') = SHORT_BREAK /\
     time_remaining_seconds (timer w') =
       short_break_duration_minutes (config (timer w)) * 60 \/
     current_state (timer w') = LONG_BREAK /\
     time_remaining_seconds (timer w') =
       long_break_duration_minutes (config (timer w)) * 60)) /\
   (current_state (timer w) <> WORK ->
    session_start_timestamp (timer w') = Some now /\
    current_state (timer w') = WORK /\
    time_remaining_seconds (timer w') =
      work_duration_minutes (config (timer w)) * 60)).
Proof.
  intros Ha w'.
  assert (Hp : current_state (timer w) = PAUSED ->
               paused_state (timer w) <> None)
    by (intros E; rewrite E in Ha; discriminate).
  destruct (handle_spec w (Tick now) Hp) as [Ht Hs]. fold w' in Ht, Hs.
  rewrite Ht, Hs. cbn [after_event rows_event].
  unfold after_tick, rows_tick. rewrite Ha.
  split; intros Htr; rewrite Htr; cbn [Z.gtb Z.compare negb andb].
  - split; [reflexivity | apply app_nil_r].
  - split; [reflexivity |].
    unfold after_complete_work, after_start_break, after_start_work.
    split.
    + intros Hc Hthr. apply Z.eqb_neq in Hthr. rewrite Hc, Hthr.
      cbn [state_eqb]. case_ifs; wsimpl; auto.
    + intros Hc. revert Ha Hc.
      destruct (current_state (timer w)); by_cases; intros Ha Hc;
        try discriminate; try (now destruct Hc); wsimpl; auto.
Qed.

Lemma tick_at_zero_completes_phase_witness :
  let clock := map Z.of_nat (seq 1001 1500) in
  let w := handle_all (init default_config)
             (Command "start" 1000 :: map Tick clock) in
  active (current_state (timer w)) = true /\
  pomodoros_before_long_break (config (timer w)) <> 0 /\
  time_remaining_seconds (timer w) = 0 /\
  sessions (handle w (Tick 2501)) =
    sessions w ++ logged_rows (timer w) true 2501 /\
  session_start_timestamp (timer (handle w (Tick 2501))) = Some 2501.
Proof.
  intros clock w.
  assert (Ha : active (current_state (timer w)) = true)
    by (vm_compute; reflexivity).
  assert (Hc : current_state (timer w) = WORK)
    by (vm_compute; reflexivity).
  assert (Hthr : pomodoros_before_long_break (config (timer w)) <> 0)
    by (vm_compute; discriminate).
  assert (Htr : time_remaining_seconds (timer w) = 0)
    by (vm_compute; reflexivity).
  split; [exact Ha |]. split; [exact Hthr |]. split; [exact Htr |].
  destruct (proj2 (tick_at_zero_completes_phase w 2501 Ha) Htr)
    as (Hs & Hw & _).
  split; [exact Hs | exact (proj1 (Hw Hc Hthr))].
Defined.

(** C3 as stated fails: skipping a Work session increments the counter. *)
Lemma skip_increments_counter :
  let w := handle (init default_config) (Command "start" 1000) in
  current_state (timer w) = WORK /\
  pomodoros_completed_in_cycle (timer w) = 0 /\
  pomodoros_completed_in_cycle (timer (handle w (Command "skip" 1060))) = 1.
Proof. vm_compute. repeat split. Qed.

(** C3 (amended): a Work session that completes naturally increments
    pomodorosCompletedInCycle by exactly 1, and so does a Work session ended
    by the skip command; a Work session ended by reset leaves the counter
    unchanged. *)
Theorem counter_on_work_exit w now :
  current_state (timer w) = WORK ->
  (time_remaining_seconds (timer w) <= 0 ->
   pomodoros_completed_in_cycle (timer (handle w (Tick now))) =
     pomodoros_completed_in_cycle (timer w) + 1) /\
  pomodoros_completed_in_cycle (timer (handle w (Command "skip" now))) =
    pomodoros_completed_in_cycle (timer w) + 1 /\
  pomodoros_completed_in_cycle (timer (handle w (Command "reset" now))) =
    pomodoros_completed_in_cycle (timer w).
Proof.
  intros Hc.
  assert (Hp : current_state (timer w) = PAUSED ->
               paused_state (timer w) <> None) by congruence.
  repeat split; [intros Htr | |];
    match goal with
    | |- context [handle w ?e] =>
        destruct (handle_spec w e Hp) as [-> _];
        rewrite (counter_after_event e _ Hp)
    end;
    unfold is_restart_cycle, work_exit; rewrite Hc;
    rewrite ?(gtb_false _ Htr); reflexivity.
Qed.

Lemma counter_on_work_exit_witness :
  let w := handle (init default_config) (Command "start" 1000) in
  current_state (timer w) = WORK /\
  pomodoros_completed_in_cycle (timer (handle w (Command "skip" 1060))) =
    pomodoros_completed_in_cycle (timer w) + 1 /\
  pomodoros_completed_in_cycle (timer (handle w (Command "reset" 1060))) =
    pomodoros_completed_in_cycle (timer w).
Proof.
  intros w.
  assert (Hc : current_state (timer w) = WORK) by reflexivity.
  split; [exact Hc |].
  exact (proj2 (counter_on_work_exit w 1060 Hc)).
Defined.

(** C4: pomodorosCompletedInCycle goes up by exactly one on the event that
    ends a Work session by natural completion or by skip, is set to 0 by
    [restart_cycle], and is left alone by every other event; so it never goes
    up when a break ends, by whatever means (shutdown included), and only an
    explicit cycle restart brings it down. *)
Theorem counter_changes_only_on_work_exit_or_restart cfg w e :
  Reachable cfg w ->
  let n := pomodoros_completed_in_cycle (timer w) in
  let n' := pomodoros_completed_in_cycle (timer (handle w e)) in
  n' = (if is_restart_cycle e then 0
        else if work_exit e (timer w) then n + 1 else n) /\
  (current_state (timer w) = SHORT_BREAK \/
   current_state (timer w) = LONG_BREAK -> n' <= n) /\
  (n' < n -> is_restart_cycle e = true) /\
  (forall signum now,
      pomodoros_completed_in_cycle (timer (exec (_handle_exit signum now) w))
      = n).
Proof.
  intros Hr n n'.
  pose proof (Reachable_Inv cfg w Hr) as ((Hp & _) & _ & Hpc). fold n in Hpc.
  assert (E : n' = (if is_restart_cycle e then 0
                    else if work_exit e (timer w) then n + 1 else n)).
  { unfold n'. destruct (handle_spec w e Hp) as [-> _].
    now apply counter_after_event. }
  split; [exact E |]. repeat split.
  - intros Hb. rewrite E. unfold work_exit.
    destruct (is_restart_cycle e); [assumption |].
    destruct Hb as [-> | ->]; simpl; lia.
  - rewrite E. destruct (is_restart_cycle e); [reflexivity |].
    destruct (work_exit e (timer w)); lia.
  - intros signum now.
    destruct (handle_exit_spec signum now w) as (_ & -> & _). reflexivity.
Qed.

Lemma counter_changes_only_on_work_exit_or_restart_witness :
  let w := handle (handle (init default_config) (Command "start" 1000))
             (Command "skip" 1060) in
  let e := Command "skip" 1100 in
  Reachable default_config w /\
  current_state (timer w) = SHORT_BREAK /\
  pomodoros_completed_in_cycle (timer w) = 1 /\
  pomodoros_completed_in_cycle (timer (handle w e)) = 1.
Proof.
  intros w e.
  assert (Hr : Reachable default_config w)
    by (apply Reachable_step, Reachable_step, Reachable_init).
  split; [exact Hr |]. split; [reflexivity |]. split; [reflexivity |].
  exact (proj1 (counter_changes_only_on_work_exit_or_restart
                  default_config w e Hr)).
Defined.

(** C5: when a Work session ends by natural completion or by skip and the
    threshold is not zero, the counter is incremented and the next phase is
    LongBreak exactly when the incremented counter is a multiple of
    pomodorosBeforeLongBreak, and ShortBreak otherwise. *)
Theorem long_break_iff_counter_multiple_of_threshold w e :
  work_exit e (timer w) = true ->
  pomodoros_before_long_break (config (timer w)) <> 0 ->
  let w' := handle w e in
  let n' := pomodoros_completed_in_cycle (timer w') in
  n' = pomodoros_completed_in_cycle (timer w) + 1 /\
  (current_state (timer w') = LONG_BREAK <->
   n' mod pomodoros_before_long_break (config (timer w)) = 0) /\
  (current_state (timer w') = SHORT_BREAK <->
   n' mod pomodoros_before_long_break (config (timer w)) <> 0).
Proof.
  intros He Hthr w' n'.
  unfold work_exit in He. apply andb_prop in He as [Hc He].
  apply state_eqb_eq in Hc.
  assert (Hp : current_state (timer w) = PAUSED ->
               paused_state (timer w) <> None) by congruence.
  assert (Ht : timer w' = after_complete_work
                            match e with Command _ now | Tick now => now end
                            (timer w)).
  { unfold w'. destruct (handle_spec w e Hp) as [-> _].
    destruct e as [command now | now]; cbn [after_event].
    - apply String.eqb_eq in He. subst command.
      unfold after_command. cbn [String.eqb Ascii.eqb Bool.eqb].
      now rewrite Hc.
    - unfold after_tick. rewrite Hc.
      apply negb_true_iff in He. rewrite He. reflexivity. }
  unfold n'. rewrite Ht. unfold after_complete_work, after_start_break.
  apply Z.eqb_neq in Hthr. rewrite Hthr. clear Hthr.
  match goal with
  | |- context [?x mod ?y =? 0] =>
      destruct (Z.eqb_spec (x mod y) 0) as [Em | Em]
  end;
    wsimpl; repeat split; try congruence; try discriminate;
    intros; contradiction.
Qed.

Lemma long_break_iff_counter_multiple_of_threshold_witness :
  let w := handle (init default_config) (Command "start" 1000) in
  let e := Command "skip" 1060 in
  work_exit e (timer w) = true /\
  pomodoros_before_long_break (config (timer w)) <> 0 /\
  pomodoros_completed_in_cycle (timer (handle w e)) =
    pomodoros_completed_in_cycle (timer w) + 1.
Proof.
  intros w e.
  assert (He : work_exit e (timer w) = true) by reflexivity.
  assert (Hthr : pomodoros_before_long_break (config (timer w)) <> 0)
    by (vm_compute; discriminate).
  split; [exact He |]. split; [exact Hthr |].
  exact (proj1 (long_break_iff_counter_multiple_of_threshold w e He Hthr)).
Defined.

(** The example of C5: with threshold 4, the Work sessions that bring the
    counter to 1, 2 and 3 are followed by a short break, those that bring it
    to 4 and to 8 by a long break.  Each Work session and each break is left
    by [skip]. *)
Lemma threshold_4_breaks :
  let after n :=
    timer (handle_all (init default_config)
             (Command "start" 1000 :: repeat (Command "skip" 1060) n)) in
  map (fun n => (pomodoros_completed_in_cycle (after n),
                 current_state (after n)))
      [1; 3; 5; 7; 15]%nat
  = [(1, SHORT_BREAK); (2, SHORT_BREAK); (3, SHORT_BREAK);
     (4, LONG_BREAK); (8, LONG_BREAK)].
Proof. vm_compute. reflexivity. Qed.

(** C6: from any running phase and any remaining time, [pause], then any
    number of loop iterations, then [resume] or [start], gives back the phase
    that was paused and exactly the remaining time captured by [pause]. *)
Theorem pause_then_resume_restores w how t_pause t_resume clock :
  active (current_state (timer w)) = true ->
  how = "resume"%string \/ how = "start"%string ->
  let paused :=
    handle_all (handle w (Command "pause" t_pause)) (map Tick clock) in
  let resumed := handle paused (Command how t_resume) in
  current_state (timer paused) = PAUSED /\
  paused_time_remaining (timer paused) = time_remaining_seconds (timer w) /\
  current_state (timer resumed) = current_state (timer w) /\
  time_remaining_seconds (timer resumed) = time_remaining_seconds (timer w).
Proof.
  intros Ha Hhow paused resumed.
  assert (Hp : current_state (timer w) = PAUSED ->
               paused_state (timer w) <> None)
    by (intros E; rewrite E in Ha; discriminate).
  assert (Ht : timer paused = after_pause (timer w)).
  { unfold paused.
    destruct (handle_spec w (Command "pause" t_pause) Hp) as [Ht _].
    rewrite ticks_not_active; rewrite Ht; cbn [after_event];
      unfold after_command; cbn [String.eqb Ascii.eqb Bool.eqb];
      rewrite Ha; reflexivity. }
  assert (Hp' : current_state (timer paused) = PAUSED ->
                paused_state (timer paused) <> None)
    by (rewrite Ht; discriminate).
  assert (Ht' : timer resumed = after_resume t_resume (after_pause (timer w))).
  { unfold resumed.
    destruct (handle_spec paused (Command how t_resume) Hp') as [-> _].
    rewrite Ht. cbn [after_event]. unfold after_command.
    destruct Hhow as [-> | ->]; reflexivity. }
  rewrite Ht, Ht'. unfold after_resume, after_pause, logged_state. wsimpl.
  repeat split.
Qed.

Lemma pause_then_resume_restores_witness :
  let w := handle_all (init default_config)
             [Command "start" 1000; Tick 1001; Tick 1002] in
  let paused :=
    handle_all (handle w (Command "pause" 1003)) (map Tick [1004; 1005]) in
  let resumed := handle paused (Command "resume" 1006) in
  active (current_state (timer w)) = true /\
  time_remaining_seconds (timer w) = 1498 /\
  current_state (timer resumed) = WORK /\
  time_remaining_seconds (timer resumed) = 1498.
Proof.
  intros w paused resumed.
  assert (Ha : active (current_state (timer w)) = true) by reflexivity.
  split; [exact Ha |]. split; [reflexivity |].
  exact (proj2 (proj2 (pause_then_resume_restores
                         w "resume" 1003 1006 [1004; 1005] Ha
                         (or_introl eq_refl)))).
Defined.

(** C7 as stated fails: the configured durations are copied unchecked into
    the countdown.  With [work_duration_minutes = -1], [start] puts the timer
    in Work with -60 seconds remaining. *)
Lemma negative_duration_gives_negative_time_remaining :
  let cfg := {| work_duration_minutes := -1;
                short_break_duration_minutes := 5;
                long_break_duration_minutes := 15;
                pomodoros_before_long_break := 4;
                notification_sound_work_end := EmptyString;
                notification_sound_break_end := EmptyString |} in
  let w := handle (init cfg) (Command "start" 1000) in
  Reachable cfg w /\
  current_state (timer w) = WORK /\
  time_remaining_seconds (timer w) = -60 /\
  ~ 0 <= time_remaining_seconds (timer w).
Proof.
  intros cfg w. split; [apply Reachable_step, Reachable_init |].
  split; [reflexivity |]. split; [reflexivity |].
  vm_compute. intros H. apply H. reflexivity.
Qed.

(** C7 (amended): when the configured durations are non-negative,
    timeRemainingSeconds is at least 0 in every reachable state and a loop
    iteration that lowers it lowers it by exactly 1.  For any configuration
    and any state, a loop iteration while Idle or Paused changes nothing, so
    an iteration lowers timeRemainingSeconds only in Work, ShortBreak or
    LongBreak. *)
Theorem time_remaining_never_negative cfg w now :
  (durations_ok cfg -> Reachable cfg w ->
   0 <= time_remaining_seconds (timer w) /\
   (time_remaining_seconds (timer (handle w (Tick now)))
      < time_remaining_seconds (timer w) ->
    time_remaining_seconds (timer (handle w (Tick now)))
      = time_remaining_seconds (timer w) - 1)) /\
  (active (current_state (timer w)) = false -> handle w (Tick now) = w) /\
  (time_remaining_seconds (timer (handle w (Tick now)))
     < time_remaining_seconds (timer w) ->
   active (current_state (timer w)) = true).
Proof.
  split; [| split; [apply tick_not_active |]].
  - intros Hd Hr.
    pose proof (Reachable_time_ok cfg w Hd Hr) as [Htr _].
    pose proof (Reachable_time_ok cfg _ Hd
                  (Reachable_step cfg w (Tick now) Hr)) as [Htr' _].
    split; [exact Htr |]. revert Htr'.
    destruct (handle_spec w (Tick now)
                (Reachable_paused_state_set cfg w Hr)) as [-> _].
    cbn [after_event]. unfold after_tick.
    destruct (active (current_state (timer w))); [| lia].
    destruct (Z.gtb_spec (time_remaining_seconds (timer w)) 0).
    + wsimpl. auto.
    + lia.
  - intros Hlt.
    destruct (active (current_state (timer w))) eqn:Ea; [reflexivity |].
    rewrite (tick_not_active now w Ea) in Hlt. lia.
Qed.

Lemma time_remaining_never_negative_witness :
  let w := handle (init default_config) (Command "start" 1000) in
  durations_ok default_config /\
  Reachable default_config w /\
  0 <= time_remaining_seconds (timer w).
Proof.
  intros w.
  assert (Hd : durations_ok default_config)
    by (unfold durations_ok; simpl; lia).
  assert (Hr : Reachable default_config w)
    by (apply Reachable_step, Reachable_init).
  split; [exact Hd |]. split; [exact Hr |].
  exact (proj1 (proj1 (time_remaining_never_negative default_config w 1001)
                  Hd Hr)).
Defined.

(** C8: in every reachable state, Idle and Paused included, [restart_cycle]
    sets pomodorosCompletedInCycle to 0 and starts a Work session with the
    full configured work duration. *)
Theorem restart_cycle_starts_fresh_work cfg w now :
  Reachable cfg w ->
  let w' := handle w (Command "restart_cycle" now) in
  pomodoros_completed_in_cycle (timer w') = 0 /\
  current_state (timer w') = WORK /\
  time_remaining_seconds (timer w') = work_duration_minutes cfg * 60 /\
  outcome (_restart_cycle now) w = Return tt.
Proof.
  intros Hr w'.
  pose proof (Reachable_paused_state_set cfg w Hr) as Hp.
  unfold w'.
  destruct (handle_spec w (Command "restart_cycle" now) Hp) as [-> _].
  rewrite <- (Reachable_config cfg w Hr).
  repeat split.
  change (wp (_restart_cycle now) w (fun r _ => r = Return tt)).
  apply restart_cycle_spec; auto.
Qed.

Lemma restart_cycle_starts_fresh_work_witness :
  let w := handle_all (init default_config)
             [Command "start" 1000; Command "skip" 1060;
              Command "pause" 1100] in
  let w' := handle w (Command "restart_cycle" 1200) in
  Reachable default_config w /\
  current_state (timer w) = PAUSED /\
  pomodoros_completed_in_cycle (timer w) = 1 /\
  pomodoros_completed_in_cycle (timer w') = 0 /\
  current_state (timer w') = WORK /\
  time_remaining_seconds (timer w') = 1500.
Proof.
  intros w w'.
  assert (Hr : Reachable default_config w)
    by (apply Reachable_step, Reachable_step, Reachable_step, Reachable_init).
  split; [exact Hr |]. split; [reflexivity |]. split; [reflexivity |].
  destruct (restart_cycle_starts_fresh_work default_config w 1200 Hr)
    as (H0 & H1 & H2 & _).
  split; [exact H0 |]. split; [exact H1 | exact H2].
Defined.

(** C9: a command that is none of the seven verbs changes nothing in the
    timer (phase, remaining time, counter, timestamps) nor in the session
    table; it appends one WARNING record to the log and returns normally. *)
Theorem unknown_command_is_ignored command now w :
  ~ In command verbs ->
  _process_command command now w =
    (Return tt, with_log (log w ++ [(WARNING, Unknown_command command)]) w).
Proof.
  intros Hn. unfold _process_command.
  case_command command;
    try (exfalso; apply Hn; unfold verbs; simpl; tauto).
  reflexivity.
Qed.

Lemma unknown_command_is_ignored_witness :
  let w := handle (init default_config) (Command "start" 1000) in
  ~ In "stop"%string verbs /\
  timer (exec (_process_command "stop" 1001) w) = timer w /\
  sessions (exec (_process_command "stop" 1001) w) = sessions w /\
  log (exec (_process_command "stop" 1001) w) =
    log w ++ [(WARNING, Unknown_command "stop")] /\
  outcome (_process_command "stop" 1001) w = Return tt.
Proof.
  intros w.
  assert (Hn : ~ In "stop"%string verbs).
  { unfold verbs. simpl. intros H.
    repeat (destruct H as [H | H]; [discriminate H |]). exact H. }
  split; [exact Hn |].
  unfold exec, outcome.
  rewrite (unknown_command_is_ignored "stop" 1001 w Hn).
  repeat split.
Defined.

(** C10: [start] received in Work, ShortBreak or LongBreak does nothing at
    all: phase, remaining time, counter and start timestamp are unchanged, no
    session record is written, and nothing else is either. *)
Theorem start_while_running_is_noop now w :
  active (current_state (timer w)) = true ->
  _process_command "start" now w = (Return tt, w).
Proof.
  intros Ha. unfold _process_command.
  cbn [String.eqb Ascii.eqb Bool.eqb]. unfold bind, self. revert Ha.
  destruct (current_state (timer w)); by_cases; intros Ha;
    try discriminate; reflexivity.
Qed.

Lemma start_while_running_is_noop_witness :
  let w := handle (init default_config) (Command "start" 1000) in
  active (current_state (timer w)) = true /\
  _process_command "start" 1001 w = (Return tt, w).
Proof.
  intros w.
  assert (Ha : active (current_state (timer w)) = true) by reflexivity.
  split; [exact Ha |].
  exact (start_while_running_is_noop 1001 w Ha).
Defined.

(** ** Further properties: the status file *)

Lemma write_status_eq w :
  (current_state (timer w) = PAUSED -> paused_state (timer w) <> None) ->
  _write_status w
  = (Return tt, with_status_file (Some (status_of (timer w))) w).
Proof.
  intros Hp.
  unfold _write_status, try_except, bind, self, get_paused_state,
    write_status_file, status_of, status_message_of, ret.
  destruct (current_state (timer w)) eqn:Ecs; try reflexivity.
  destruct (paused_state (timer w)) as [[] |]; try reflexivity.
  now destruct Hp.
Qed.

Lemma write_status_fresh w Q :
  (current_state (timer w) = PAUSED -> paused_state (timer w) <> None) ->
  (forall w', timer w' = timer w ->
              status_file w' = Some (status_of (timer w)) ->
              Q (Return tt) w') ->
  wp _write_status w Q.
Proof.
  intros Hp HQ. unfold wp. rewrite (write_status_eq w Hp).
  apply HQ; reflexivity.
Qed.

Lemma log_session_frame completed now w Q :
  (current_state (timer w) = PAUSED -> paused_state (timer w) <> None) ->
  (forall w', timer w' = timer w -> status_file w' = status_file w ->
              Q (Return tt) w') ->
  wp (_log_session completed now) w Q.
Proof.
  intros Hp HQ. unfold _log_session. apply wp_self.
  destruct (session_start_timestamp (timer w)) as [started|];
    [| apply HQ; reflexivity].
  apply wp_bind.
  destruct (current_state (timer w)) eqn:Ecs; cbn [state_eqb];
    try (apply HQ; reflexivity).
  unfold wp, get_paused_state.
  destruct (paused_state (timer w)) as [p|]; [| now destruct Hp].
  destruct p; apply HQ; reflexivity.
Qed.

Lemma start_work_session_fresh now w Q :
  (forall w', timer w' = after_start_work now (timer w) ->
              status_file w' = Some (status_of (timer w')) ->
              Q (Return tt) w') ->
  wp (_start_work_session now) w Q.
Proof.
  intros HQ. unfold _start_work_session.
  apply wp_assign, wp_self, wp_assign, wp_assign, wp_bind,
    write_status_fresh; [discriminate |].
  intros w' Ht Hs. apply wp_logger_last, HQ; wsimpl;
    [exact Ht | now rewrite Hs, Ht].
Qed.

Lemma start_break_fresh is_long_break now w Q :
  (forall w', timer w' = after_start_break is_long_break now (timer w) ->
              status_file w' = Some (status_of (timer w')) ->
              Q (Return tt) w') ->
  wp (_start_break is_long_break now) w Q.
Proof.
  intros HQ. unfold _start_break. apply wp_bind.
  destruct is_long_break;
    apply wp_assign, wp_self, wp_assign, wp_logger_last, wp_assign,
      write_status_fresh; try discriminate;
    intros w' Ht Hs; apply HQ; wsimpl;
    [exact Ht | now rewrite Hs, Ht | exact Ht | now rewrite Hs, Ht].
Qed.

Lemma pause_fresh now w Q :
  active (current_state (timer w)) = true ->
  (forall w', timer w' = after_pause (timer w) ->
              status_file w' = Some (status_of (timer w')) ->
              Q (Return tt) w') ->
  wp (_pause now) w Q.
Proof.
  intros Ha HQ. unfold _pause. apply wp_self.
  replace (negb (state_eqb (current_state (timer w)) PAUSED)) with true
    by (revert Ha; destruct (current_state (timer w)); cbv; congruence).
  apply wp_assign, wp_assign, wp_assign, wp_bind, log_session_frame;
    wsimpl; [discriminate |].
  intros w1 Ht1 Hs1. apply wp_bind, write_status_fresh;
    [rewrite Ht1; discriminate |].
  intros w2 Ht2 Hs2. apply wp_logger_last, HQ; wsimpl.
  - rewrite Ht2, Ht1. reflexivity.
  - rewrite Hs2, Ht2. reflexivity.
Qed.

Lemma resume_fresh now w Q :
  current_state (timer w) = PAUSED ->
  paused_state (timer w) <> None ->
  (forall w', timer w' = after_resume now (timer w) ->
              status_file w' = Some (status_of (timer w')) ->
              Q (Return tt) w') ->
  wp (_resume now) w Q.
Proof.
  intros Hc Hp HQ.
  unfold _resume. apply wp_self. rewrite Hc. cbn [state_eqb].
  apply wp_bind. unfold wp at 1, get_paused_state.
  unfold after_resume, logged_state in HQ. rewrite Hc in HQ. revert HQ.
  destruct (paused_state (timer w)) as [p|] eqn:Ep; [| now destruct Hp].
  intros HQ. wsimpl.
  apply wp_assign, wp_assign, wp_assign, wp_bind, write_status_fresh;
    wsimpl; [rewrite Ep; discriminate |].
  intros w1 Ht1 Hs1. apply wp_logger_last, HQ; wsimpl;
    [exact Ht1 | now rewrite Hs1, Ht1].
Qed.

Lemma send_notification_frame {B} title body (k : unit -> M B) w Q :
  (forall w', timer w' = timer w -> status_file w' = status_file w ->
              wp (k tt) w' Q) ->
  wp (bind (_send_notification title body) k) w Q.
Proof. intros H. apply wp_bind. apply H; reflexivity. Qed.

Lemma play_sound_frame {B} (cond : bool) path (k : unit -> M B) w Q :
  (forall w', timer w' = timer w -> status_file w' = status_file w ->
              wp (k tt) w' Q) ->
  wp (bind (if cond then _play_sound path else ret tt) k) w Q.
Proof. intros H. apply wp_bind. destruct cond; apply H; reflexivity. Qed.

Lemma complete_work_session_status was_skipped now w Q :
  current_state (timer w) <> PAUSED ->
  (forall w',
      timer w' = after_complete_work now (timer w) ->
      status_file w' =
        (if pomodoros_before_long_break (config (timer w)) =? 0
         then status_file w else Some (status_of (timer w'))) ->
      Q (if pomodoros_before_long_break (config (timer w)) =? 0
         then Raise ZeroDivisionError else Return tt) w') ->
  wp (_complete_work_session was_skipped now) w Q.
Proof.
  intros Hc HQ. unfold _complete_work_session.
  apply wp_bind, log_session_frame; [tauto |].
  intros w1 Ht1 Hs1. apply wp_self, wp_assign, send_notification_frame.
  intros w2 Ht2 Hs2. apply wp_self, play_sound_frame.
  intros w3 Ht3 Hs3. apply wp_bind.
  rewrite Ht2, Ht1 in *. wsimpl.
  unfold after_complete_work in HQ. revert HQ.
  unfold py_mod.
  destruct (pomodoros_before_long_break (config (timer w)) =? 0); intros HQ.
  - apply HQ; wsimpl; congruence.
  - unfold wp at 1. wsimpl.
    match goal with
    | |- context [?x mod ?y =? 0] => destruct (x mod y =? 0)
    end;
      apply start_break_fresh; intros w4 Ht4 Hs4;
      apply HQ; congruence.
Qed.

Lemma complete_break_session_fresh was_skipped now w Q :
  current_state (timer w) <> PAUSED ->
  (forall w', timer w' = after_start_work now (timer w) ->
              status_file w' = Some (status_of (timer w')) ->
              Q (Return tt) w') ->
  wp (_complete_break_session was_skipped now) w Q.
Proof.
  intros Hc HQ. unfold _complete_break_session.
  apply wp_bind, log_session_frame; [tauto |].
  intros w1 Ht1 Hs1. apply send_notification_frame.
  intros w2 Ht2 Hs2. apply wp_self, play_sound_frame.
  intros w3 Ht3 Hs3. apply start_work_session_fresh.
  intros w4 Ht4 Hs4. apply HQ; congruence.
Qed.

Lemma skip_current_phase_status now w Q :
  active (current_state (timer w)) = true ->
  (forall r w',
      timer w' = (if state_eqb (current_state (timer w)) WORK
                  then after_complete_work now (timer w)
                  else after_start_work now (timer w)) ->
      status_file w' =
        (if state_eqb (current_state (timer w)) WORK &&
            (pomodoros_before_long_break (config (timer w)) =? 0)
         then status_file w else Some (status_of (timer w'))) ->
      Q r w') ->
  wp (_skip_current_phase now) w Q.
Proof.
  intros Ha HQ.
  assert (Hc : current_state (timer w) <> PAUSED)
    by (intros E; rewrite E in Ha; discriminate).
  unfold _skip_current_phase.
  apply wp_bind, log_session_frame; [tauto |].
  intros w1 Ht1 Hs1. apply wp_self, wp_bind. rewrite Ht1. revert HQ.
  destruct (state_eqb (current_state (timer w)) WORK); intros HQ.
  - apply complete_work_session_status; [congruence |].
    intros w2 Ht2 Hs2. rewrite Ht1, Hs1 in *. revert HQ Hs2. cbn [andb].
    destruct (pomodoros_before_long_break (config (timer w)) =? 0);
      intros HQ Hs2.
    + apply HQ; assumption.
    + apply wp_logger_last, HQ; wsimpl; assumption.
  - apply start_work_session_fresh. intros w2 Ht2 Hs2.
    apply wp_logger_last, HQ; wsimpl; [congruence | exact Hs2].
Qed.

Lemma reset_fresh now w Q :
  (current_state (timer w) = PAUSED -> paused_state (timer w) <> None) ->
  (forall w', timer w' = after_reset (timer w) ->
              status_file w' = Some (status_of (timer w')) ->
              Q (Return tt) w') ->
  wp (_reset now) w Q.
Proof.
  intros Hp HQ. unfold _reset. apply wp_self, wp_bind.
  destruct (state_eqb (current_state (timer w)) IDLE); cbn [negb].
  - unfold wp at 1. wsimpl.
    apply wp_assign, wp_assign, wp_assign, wp_bind, write_status_fresh;
      wsimpl; [discriminate |].
    intros w1 Ht1 Hs1. apply wp_logger_last, HQ; wsimpl;
      [exact Ht1 | now rewrite Hs1, Ht1].
  - apply log_session_frame; [assumption |]. intros w0 Ht0 Hs0.
    apply wp_assign, wp_assign, wp_assign, wp_bind, write_status_fresh;
      wsimpl; [discriminate |].
    intros w1 Ht1 Hs1. apply wp_logger_last, HQ; wsimpl;
      [now rewrite Ht1, Ht0 | now rewrite Hs1, Ht1].
Qed.

Lemma restart_cycle_fresh now w Q :
  (current_state (timer w) = PAUSED -> paused_state (timer w) <> None) ->
  (forall w', timer w' = after_restart_cycle now (timer w) ->
              status_file w' = Some (status_of (timer w')) ->
              Q (Return tt) w') ->
  wp (_restart_cycle now) w Q.
Proof.
  intros Hp HQ. unfold _restart_cycle. apply wp_self, wp_bind.
  destruct (state_eqb (current_state (timer w)) IDLE); cbn [negb].
  - unfold wp at 1. wsimpl.
    apply wp_assign, wp_bind, start_work_session_fresh.
    intros w1 Ht1 Hs1. apply wp_logger_last, HQ; wsimpl;
      [exact Ht1 | exact Hs1].
  - apply log_session_frame; [assumption |]. intros w0 Ht0 Hs0.
    apply wp_assign, wp_bind, start_work_session_fresh.
    intros w1 Ht1 Hs1. apply wp_logger_last, HQ; wsimpl;
      [now rewrite Ht1, Ht0 | exact Hs1].
Qed.

Ltac wp_quiet HQ :=
  lazymatch goal with
  | |- wp (ret tt) _ _ => apply wp_ret, HQ; reflexivity
  end.

Lemma process_command_status command now w Q :
  (current_state (timer w) = PAUSED -> paused_state (timer w) <> None) ->
  (forall r w',
      status_file w' =
        (if writes_status (Command command now) (timer w)
         then Some (status_of (timer w')) else status_file w) ->
      Q r w') ->
  wp (_process_command command now) w Q.
Proof.
  intros Hp. unfold _process_command, writes_status.
  destruct (command =? "start")%string.
  { intros HQ. apply wp_self. revert HQ.
    destruct (current_state (timer w)) eqn:Ecs;
      cbn [state_in existsb state_eqb orb]; intros HQ;
      try (wp_quiet HQ).
    - apply start_work_session_fresh. intros w' Ht Hs. now apply HQ.
    - apply resume_fresh; auto. }
  destruct (command =? "pause")%string.
  { intros HQ. apply wp_self. revert HQ.
    fold (active (current_state (timer w))).
    destruct (active (current_state (timer w))) eqn:Ea; intros HQ.
    - apply pause_fresh; auto.
    - wp_quiet HQ. }
  destruct (command =? "resume")%string.
  { intros HQ. apply wp_self. revert HQ.
    destruct (current_state (timer w)) eqn:Ecs;
      cbn [state_in existsb state_eqb orb]; intros HQ;
      try (wp_quiet HQ).
    apply resume_fresh; auto. }
  destruct (command =? "skip")%string.
  { intros HQ. apply wp_self. revert HQ.
    destruct (current_state (timer w)) eqn:Ecs;
      cbn [state_in existsb state_eqb orb]; intros HQ;
      try (wp_quiet HQ);
      apply skip_current_phase_status; rewrite ?Ecs; try reflexivity;
      cbn [state_eqb andb]; intros r w' Ht Hs; apply HQ; rewrite Hs;
      try reflexivity.
    destruct (_ =? 0); reflexivity. }
  destruct (command =? "reset")%string.
  { intros HQ. apply reset_fresh; [assumption |]. intros w' Ht Hs.
    now apply HQ. }
  destruct (command =? "restart_cycle")%string.
  { intros HQ. apply restart_cycle_fresh; [assumption |]. intros w' Ht Hs.
    now apply HQ. }
  destruct (command =? "get_status")%string.
  { intros HQ. apply write_status_fresh; [assumption |]. intros w' Ht Hs.
    apply HQ. now rewrite Hs, Ht. }
  intros HQ. apply wp_logger_last, HQ. reflexivity.
Qed.

Lemma command_listener_status command now w :
  (current_state (timer w) = PAUSED -> paused_state (timer w) <> None) ->
  status_file (exec (_command_listener command now) w) =
    if writes_status (Command command now) (timer w)
    then Some (status_of (timer (exec (_command_listener command now) w)))
    else status_file w.
Proof.
  intros Hp.
  change (wp (_command_listener command now) w
            (fun _ w' =>
               status_file w' =
                 if writes_status (Command command now) (timer w)
                 then Some (status_of (timer w')) else status_file w)).
  unfold _command_listener. apply wp_try_except.
  destruct (nonempty command) eqn:En.
  - apply wp_logger, process_command_status; [exact Hp |].
    intros [[] | e] w' Hs; [assumption |].
    destruct (is_Exception e); [apply wp_logger_last; wsimpl |]; assumption.
  - apply nonempty_false in En. subst command. reflexivity.
Qed.

Lemma run_iteration_status now w :
  status_file (exec (run_iteration now) w) =
    if writes_status (Tick now) (timer w)
    then Some (status_of (timer (exec (run_iteration now) w)))
    else status_file w.
Proof.
  change (wp (run_iteration now) w
            (fun _ w' =>
               status_file w' =
                 if writes_status (Tick now) (timer w)
                 then Some (status_of (timer w')) else status_file w)).
  unfold run_iteration, writes_status.
  apply wp_try_except, wp_self.
  destruct (current_state (timer w)) eqn:Ecs;
    cbv [active state_in existsb state_eqb orb negb andb];
    try reflexivity.
  all: destruct (time_remaining_seconds (timer w) >? 0) eqn:Etr.
  all: try (apply wp_assign, wp_self; wsimpl;
            match goal with
            | |- context [?x mod 5 =? 0] => destruct (x mod 5 =? 0)
            end;
            [apply write_status_fresh; wsimpl;
             [congruence | intros w' Ht Hs; rewrite Ht, Hs]
            | unfold wp]; reflexivity).
  - apply complete_work_session_status; [congruence |]. intros w' Ht Hs.
    destruct (_ =? 0); [apply wp_logger_last; wsimpl |]; assumption.
  - apply complete_break_session_fresh; [congruence |]. intros w' Ht Hs.
    assumption.
  - apply complete_break_session_fresh; [congruence |]. intros w' Ht Hs.
    assumption.
Qed.

Lemma handle_status w e :
  (current_state (timer w) = PAUSED -> paused_state (timer w) <> None) ->
  status_file (handle w e) =
    if writes_status e (timer w)
    then Some (status_of (timer (handle w e))) else status_file w.
Proof.
  intros Hp. destruct e as [command now | now]; cbn [handle].
  - now apply command_listener_status.
  - apply run_iteration_status.
Qed.

(** An event that does not write the status leaves the timer alone, or counts
    one second down to a value that is no multiple of 5, or (zero threshold)
    only increments the counter before [%] raises. *)
Lemma after_event_quiet e t :
  writes_status e t = false ->
  after_event e t = t \/
  (active (current_state t) = true /\
   0 < time_remaining_seconds t /\
   (time_remaining_seconds t - 1) mod 5 <> 0 /\
   after_event e t =
     set_time_remaining_seconds (time_remaining_seconds t - 1) t) \/
  (pomodoros_before_long_break (config t) = 0 /\
   current_state t = WORK /\
   after_event e t =
     set_pomodoros_completed_in_cycle (pomodoros_completed_in_cycle t + 1) t).
Proof.
  destruct e as [command now | now]; cbn [writes_status after_event].
  - unfold after_command, after_complete_work.
    case_command command; cbn [String.eqb Ascii.eqb Bool.eqb];
      try discriminate; try (intros _; left; reflexivity);
      destruct (current_state t) eqn:Ecs; by_cases;
      try discriminate; try (intros _; left; reflexivity).
    destruct (Z.eqb_spec (pomodoros_before_long_break (config t)) 0);
      [| discriminate].
    intros _. right; right. auto.
  - unfold after_tick, after_complete_work.
    destruct (active (current_state t)) eqn:Ea; [| left; reflexivity].
    destruct (Z.gtb_spec (time_remaining_seconds t) 0).
    + intros Hm. apply Z.eqb_neq in Hm. right; left. auto.
    + destruct (state_eqb (current_state t) WORK) eqn:Ew; [| discriminate].
      apply state_eqb_eq in Ew.
      destruct (Z.eqb_spec (pomodoros_before_long_break (config t)) 0);
        [| discriminate].
      intros _. right; right. auto.
Qed.

Lemma status_ok_handle w e :
  (current_state (timer w) = PAUSED -> paused_state (timer w) <> None) ->
  status_ok w -> status_ok (handle w e).
Proof.
  intros Hp Hok. unfold status_ok.
  rewrite (handle_status w e Hp).
  destruct (writes_status e (timer w)) eqn:Ew.
  - cbn [status_of status_state status_time_remaining
           status_total_pomodoros_for_long_break status_pomodoros_completed].
    repeat split; try reflexivity; lia.
  - destruct (handle_spec w e Hp) as [Ht _]. rewrite Ht.
    unfold status_ok in Hok.
    destruct (after_event_quiet e (timer w) Ew)
      as [E | [(Ha & Hpos & Hm & E) | (Hz & Hc & E)]]; rewrite E.
    + exact Hok.
    + destruct (status_file w) as [s |].
      * destruct Hok as (H1 & H2 & H3 & H4 & H5). wsimpl.
        repeat split; try assumption; try lia.
        intros k Hk.
        destruct (Z.eq_dec k (time_remaining_seconds (timer w) - 1));
          [subst k; assumption | apply H3; lia].
      * destruct Hok as [Hc _]. rewrite Hc in Ha. discriminate.
    + destruct (status_file w) as [s |].
      * destruct Hok as (H1 & H2 & H3 & H4 & H5). wsimpl.
        repeat split; try assumption. intros Hn. contradiction.
      * destruct Hok as [Hi _]. congruence.
Qed.

Lemma Reachable_status_ok cfg w : Reachable cfg w -> status_ok w.
Proof.
  induction 1 as [| w e Hr IH].
  - unfold status_ok. simpl. auto.
  - apply status_ok_handle; [| assumption].
    now apply (Reachable_paused_state_set cfg).
Qed.

(** Five consecutive integers contain a multiple of 5. *)
Lemma gap_without_multiple_of_5 a b :
  (forall k, a <= k < b -> k mod 5 <> 0) -> b - a <= 4.
Proof.
  intros H. destruct (Z_le_gt_dec (b - a) 4) as [Hle | Hgt]; [assumption |].
  exfalso.
  pose proof (Z.mod_pos_bound (- a) 5 ltac:(lia)) as Hb.
  apply (H (a + (- a) mod 5)); [lia |].
  rewrite Z.add_mod_idemp_r by lia.
  replace (a + - a) with 0 by lia. reflexivity.
Qed.

(** X1: in every reachable state the status file, once written, names the
    current phase and the configured threshold, and shows a remaining time
    that is the timer's or at most 4 seconds older; with a non-zero
    threshold it also shows the current pomodoro counter. *)
Theorem status_file_at_most_4_seconds_stale cfg w s :
  Reachable cfg w ->
  status_file w = Some s ->
  status_state s = state_map (current_state (timer w)) /\
  0 <= status_time_remaining s - time_remaining_seconds (timer w) <= 4 /\
  status_total_pomodoros_for_long_break s = pomodoros_before_long_break cfg /\
  (pomodoros_before_long_break cfg <> 0 ->
   status_pomodoros_completed s = pomodoros_completed_in_cycle (timer w)).
Proof.
  intros Hr Hs. pose proof (Reachable_status_ok cfg w Hr) as Hok.
  unfold status_ok in Hok. rewrite Hs in Hok.
  destruct Hok as (H1 & H2 & H3 & H4 & H5).
  rewrite (Reachable_config cfg w Hr) in *.
  apply gap_without_multiple_of_5 in H3.
  repeat split; try assumption; lia.
Qed.

Lemma status_file_at_most_4_seconds_stale_witness :
  let w := handle_all (init default_config)
             [Command "start" 1000; Tick 1001; Tick 1002; Tick 1003] in
  Reachable default_config w /\
  time_remaining_seconds (timer w) = 1497 /\
  exists s,
    status_file w = Some s /\
    status_state s = "work"%string /\
    status_time_remaining s = 1500 /\
    0 <= status_time_remaining s - time_remaining_seconds (timer w) <= 4.
Proof.
  intros w.
  assert (Hr : Reachable default_config w)
    by (repeat apply Reachable_step; apply Reachable_init).
  split; [exact Hr |]. split; [reflexivity |].
  eexists. split; [reflexivity |]. split; [reflexivity |].
  split; [reflexivity |].
  exact (proj1 (proj2 (status_file_at_most_4_seconds_stale
                         default_config w _ Hr eq_refl))).
Defined.

(** X2: before anything was written to the status file the timer is still
    idle with nothing to count down, so a reader that finds no file and
    reports an idle timer is right. *)
Theorem no_status_file_means_idle cfg w :
  Reachable cfg w ->
  status_file w = None ->
  current_state (timer w) = IDLE /\ time_remaining_seconds (timer w) = 0.
Proof.
  intros Hr Hs. pose proof (Reachable_status_ok cfg w Hr) as Hok.
  unfold status_ok in Hok. rewrite Hs in Hok. exact Hok.
Qed.

Lemma no_status_file_means_idle_witness :
  let w := handle_all (init default_config)
             [Command "pause" 1000; Tick 1001; Command "bogus" 1002] in
  Reachable default_config w /\
  status_file w = None /\
  current_state (timer w) = IDLE.
Proof.
  intros w.
  assert (Hr : Reachable default_config w)
    by (repeat apply Reachable_step; apply Reachable_init).
  split; [exact Hr |]. split; [reflexivity |].
  exact (proj1 (no_status_file_means_idle default_config w Hr eq_refl)).
Defined.

(** X3: [_write_status] never raises and never touches the timer or the
    session table.  When the timer is paused but [paused_state] was never
    assigned, the [AttributeError] is caught: the status file is left as it
    was and one ERROR record is logged.  Otherwise the log is untouched and
    the file shows the phase, remaining time, counter and threshold of the
    timer. *)
Theorem write_status_is_contained w :
  outcome _write_status w = Return tt /\
  timer (exec _write_status w) = timer w /\
  sessions (exec _write_status w) = sessions w /\
  (current_state (timer w) = PAUSED /\ paused_state (timer w) = None ->
   status_file (exec _write_status w) = status_file w /\
   log (exec _write_status w) =
     log w ++ [(ERROR, Unexpected_error_writing_status AttributeError)]) /\
  (~ (current_state (timer w) = PAUSED /\ paused_state (timer w) = None) ->
   log (exec _write_status w) = log w /\
   exists s,
     status_file (exec _write_status w) = Some s /\
     status_state s = state_map (current_state (timer w)) /\
     status_time_remaining s = time_remaining_seconds (timer w) /\
     status_pomodoros_completed s = pomodoros_completed_in_cycle (timer w) /\
     status_total_pomodoros_for_long_break s =
       pomodoros_before_long_break (config (timer w))).
Proof.
  split; [| split; [| split; [| split]]].
  - change (wp _write_status w (fun r _ => r = Return tt)).
    apply write_status_spec. reflexivity.
  - change (wp _write_status w (fun _ w' => timer w' = timer w)).
    apply write_status_spec. auto.
  - change (wp _write_status w (fun _ w' => sessions w' = sessions w)).
    apply write_status_spec. auto.
  - intros [Hc Hp].
    unfold exec, _write_status, try_except, bind, self, get_paused_state.
    rewrite Hc, Hp. split; reflexivity.
  - intros Hn.
    assert (Hp : current_state (timer w) = PAUSED ->
                 paused_state (timer w) <> None) by tauto.
    unfold exec. rewrite (write_status_eq w Hp). cbn [snd].
    split; [reflexivity |]. eexists. split; [reflexivity |].
    repeat split.
Qed.

Lemma write_status_is_contained_witness :
  let w := handle_all (init default_config)
             [Command "start" 1000; Tick 1001] in
  ~ (current_state (timer w) = PAUSED /\ paused_state (timer w) = None) /\
  log (exec _write_status w) = log w /\
  exists s,
    status_file (exec _write_status w) = Some s /\
    status_state s = "work"%string /\
    status_time_remaining s = 1499.
Proof.
  intros w.
  assert (Hn : ~ (current_state (timer w) = PAUSED /\
                  paused_state (timer w) = None))
    by (intros [Hc _]; discriminate Hc).
  split; [exact Hn |].
  destruct (proj2 (proj2 (proj2 (proj2 (write_status_is_contained w)))) Hn)
    as (Hl & s & Hs & H1 & H2 & _).
  split; [exact Hl |]. exists s. split; [exact Hs |].
  split; [exact H1 | exact H2].
Defined.

(** ** Further properties: no event handler lets an exception escape *)

Lemma no_exit_ret {A} (a : A) : no_exit (ret a).
Proof. intros w. exact I. Qed.

Lemma no_exit_bind {A B} (m : M A) (k : A -> M B) :
  no_exit m -> (forall a, no_exit (k a)) -> no_exit (bind m k).
Proof.
  intros Hm Hk w. unfold bind. specialize (Hm w).
  destruct (m w) as [[a | e] w1]; [apply Hk | exact Hm].
Qed.

Lemma no_exit_try_except body handler :
  no_exit body -> (forall e, no_exit (handler e)) ->
  no_exit (try_except body handler).
Proof.
  intros Hb Hh w. unfold try_except. specialize (Hb w).
  destruct (body w) as [[a | e] w1]; [exact I |].
  destruct (is_Exception e) eqn:E; [apply Hh | exact Hb].
Qed.

Lemma no_exit_get_paused_state : no_exit get_paused_state.
Proof.
  intros w. unfold get_paused_state.
  destruct (paused_state (timer w)); simpl; auto.
Qed.

Lemma no_exit_py_mod a b : no_exit (py_mod a b).
Proof. intros w. unfold py_mod. destruct (b =? 0); simpl; auto. Qed.

Lemma no_exit_self : no_exit self.
Proof. intros w. exact I. Qed.

Lemma no_exit_assign f : no_exit (assign f).
Proof. intros w. exact I. Qed.

Lemma no_exit_logger lvl msg : no_exit (logger lvl msg).
Proof. intros w. exact I. Qed.

Lemma no_exit_insert_session r : no_exit (insert_session r).
Proof. intros w. exact I. Qed.

Lemma no_exit_write_status_file s : no_exit (write_status_file s).
Proof. intros w. exact I. Qed.

Lemma no_exit_play_sound path : no_exit (_play_sound path).
Proof. intros w. exact I. Qed.

Create HintDb no_exit discriminated.
#[local] Hint Resolve no_exit_get_paused_state no_exit_py_mod no_exit_self
  no_exit_assign no_exit_logger no_exit_insert_session
  no_exit_write_status_file no_exit_play_sound : no_exit.

(** Follows the structure of a method body. *)
Ltac no_exit_tac :=
  repeat first
    [ solve [eauto with no_exit]
    | apply no_exit_ret
    | apply no_exit_bind; [| intros ?]
    | apply no_exit_try_except; [| intros ?]
    | match goal with
      | |- no_exit (if ?b then _ else _) => destruct b
      | |- no_exit (match ?x with _ => _ end) => destruct x
      end ].

Lemma no_exit_write_status : no_exit _write_status.
Proof. unfold _write_status. no_exit_tac. Qed.

Lemma no_exit_log_session completed now : no_exit (_log_session completed now).
Proof. unfold _log_session. no_exit_tac. Qed.

#[local] Hint Resolve no_exit_write_status no_exit_log_session : no_exit.

Lemma no_exit_start_work_session now : no_exit (_start_work_session now).
Proof. unfold _start_work_session. no_exit_tac. Qed.

Lemma no_exit_start_break b now : no_exit (_start_break b now).
Proof. unfold _start_break. no_exit_tac. Qed.

Lemma no_exit_send_notification title body :
  no_exit (_send_notification title body).
Proof.
  unfold _send_notification. apply no_exit_bind; [| intros ?; no_exit_tac].
  intros w. exact I.
Qed.

#[local] Hint Resolve no_exit_start_work_session no_exit_start_break
  no_exit_send_notification : no_exit.

Lemma no_exit_pause now : no_exit (_pause now).
Proof. unfold _pause. no_exit_tac. Qed.

Lemma no_exit_resume now : no_exit (_resume now).
Proof. unfold _resume. no_exit_tac. Qed.

Lemma no_exit_complete_work_session b now :
  no_exit (_complete_work_session b now).
Proof. unfold _complete_work_session. no_exit_tac. Qed.

Lemma no_exit_complete_break_session b now :
  no_exit (_complete_break_session b now).
Proof. unfold _complete_break_session. no_exit_tac. Qed.

#[local] Hint Resolve no_exit_pause no_exit_resume
  no_exit_complete_work_session no_exit_complete_break_session : no_exit.

Lemma no_exit_skip_current_phase now : no_exit (_skip_current_phase now).
Proof. unfold _skip_current_phase. no_exit_tac. Qed.

Lemma no_exit_reset now : no_exit (_reset now).
Proof. unfold _reset. no_exit_tac. Qed.

Lemma no_exit_restart_cycle now : no_exit (_restart_cycle now).
Proof. unfold _restart_cycle. no_exit_tac. Qed.

#[local] Hint Resolve no_exit_skip_current_phase no_exit_reset
  no_exit_restart_cycle : no_exit.

Lemma no_exit_process_command command now :
  no_exit (_process_command command now).
Proof. unfold _process_command. no_exit_tac. Qed.

Lemma try_except_returns body handler w :
  no_exit body ->
  (forall e w', fst (handler e w') = Return tt) ->
  fst (try_except body handler w) = Return tt.
Proof.
  intros Hb Hh. unfold try_except. specialize (Hb w).
  destruct (body w) as [[[] | e] w1]; [reflexivity |].
  simpl in Hb. rewrite Hb. apply Hh.
Qed.

(** X4: neither entry point of the engine lets an exception escape,
    whatever the command text and whatever the state (even one with
    [paused_state] unassigned or a zero threshold): the command listener and
    an iteration of the main loop always return normally, and a blank line
    changes nothing at all. *)
Theorem event_handlers_never_raise command now w :
  outcome (_command_listener command now) w = Return tt /\
  outcome (run_iteration now) w = Return tt /\
  _command_listener EmptyString now w = (Return tt, w).
Proof.
  split; [| split; [apply run_iteration_returns | reflexivity]].
  unfold outcome, _command_listener. apply try_except_returns.
  - destruct (nonempty command); [| apply no_exit_ret].
    apply no_exit_bind; [apply no_exit_logger |].
    intros _. apply no_exit_process_command.
  - reflexivity.
Qed.

(** ** Further properties: the session table *)

Lemma logged_rows_ok t flag now : Forall row_ok (logged_rows t flag now).
Proof.
  unfold logged_rows.
  destruct (session_start_timestamp t) as [started |]; [| constructor].
  destruct (logged_state t); cbn [type_map]; try constructor;
    try constructor; try reflexivity; cbn [session_type In]; tauto.
Qed.

Lemma logged_rows_flag t flag now :
  Forall (fun r => completed r = flag /\ end_time r = now)
         (logged_rows t flag now).
Proof.
  unfold logged_rows.
  destruct (session_start_timestamp t) as [started |]; [| constructor].
  destruct (type_map (logged_state t)); repeat constructor.
Qed.

Lemma logged_rows_length t flag now :
  (List.length (logged_rows t flag now) <= 1)%nat.
Proof.
  unfold logged_rows.
  destruct (session_start_timestamp t) as [started |]; [| simpl; lia].
  destruct (type_map (logged_state t)); simpl; lia.
Qed.

Lemma rows_event_ok e t : Forall row_ok (rows_event e t).
Proof.
  destruct e as [command now | now]; cbn [rows_event].
  - unfold rows_command. case_ifs; try constructor;
      try apply logged_rows_ok;
      destruct (current_state t); try constructor;
      try apply Forall_app; try split; apply logged_rows_ok.
  - unfold rows_tick. case_ifs; [apply logged_rows_ok | constructor].
Qed.

(** X5: every row the engine has inserted in table [sessions] has a type
    among work, short_break and long_break, and a duration equal to its end
    time minus its start time. *)
Theorem session_rows_well_formed cfg w :
  Reachable cfg w -> Forall row_ok (sessions w).
Proof.
  induction 1 as [| w e Hr IH]; [constructor |].
  destruct (handle_spec w e (Reachable_paused_state_set cfg w Hr)) as [_ ->].
  apply Forall_app. split; [assumption | apply rows_event_ok].
Qed.

Lemma session_rows_well_formed_witness :
  let w := handle_all (init default_config)
             [Command "start" 1000; Command "pause" 1010;
              Command "resume" 1020; Command "skip" 1030;
              Command "reset" 1040] in
  Reachable default_config w /\
  List.length (sessions w) = 4%nat /\
  Forall row_ok (sessions w).
Proof.
  intros w.
  assert (Hr : Reachable default_config w)
    by (repeat apply Reachable_step; apply Reachable_init).
  split; [exact Hr |]. split; [reflexivity |].
  exact (session_rows_well_formed default_config w Hr).
Defined.

(** X6: the session table is append-only.  One event appends at most two
    rows, all stamped with the clock of the event; rows appended by a
    command are never marked completed and rows appended by a loop iteration
    always are. *)
Theorem session_table_is_append_only cfg w e :
  Reachable cfg w ->
  exists rows,
    sessions (handle w e) = sessions w ++ rows /\
    (List.length rows <= 2)%nat /\
    Forall (fun r =>
              match e with
              | Command _ now => completed r = false /\ end_time r = now
              | Tick now => completed r = true /\ end_time r = now
              end) rows.
Proof.
  intros Hr.
  destruct (handle_spec w e (Reachable_paused_state_set cfg w Hr)) as [_ ->].
  exists (rows_event e (timer w)). split; [reflexivity |].
  destruct e as [command now | now]; cbn [rows_event].
  - unfold rows_command.
    pose proof (logged_rows_length (timer w) false now) as Hl.
    pose proof (logged_rows_flag (timer w) false now) as Hf.
    case_ifs; try (split; [simpl; lia | constructor]);
      try (split; [lia | assumption]);
      destruct (current_state (timer w));
      try (split; [simpl; lia | constructor]);
      try (split; [lia | assumption]).
    split; [rewrite List.length_app; lia | apply Forall_app; auto].
  - unfold rows_tick.
    pose proof (logged_rows_length (timer w) true now) as Hl.
    pose proof (logged_rows_flag (timer w) true now) as Hf.
    case_ifs; split; try assumption; try constructor; simpl; lia.
Qed.

Lemma session_table_is_append_only_witness :
  let w := handle (init default_config) (Command "start" 1000) in
  let e := Command "skip" 1060 in
  Reachable default_config w /\
  exists rows,
    sessions (handle w e) = sessions w ++ rows /\
    (List.length rows <= 2)%nat.
Proof.
  intros w e.
  assert (Hr : Reachable default_config w)
    by (apply Reachable_step, Reachable_init).
  split; [exact Hr |].
  destruct (session_table_is_append_only default_config w e Hr)
    as (rows & E & Hl & _).
  exists rows. split; [exact E | exact Hl].
Defined.

Lemma Reachable_handle_all cfg es : forall w,
  Reachable cfg w -> Reachable cfg (handle_all w es).
Proof.
  unfold handle_all.
  induction es as [| e es IH]; intros w Hr; [exact Hr |].
  cbn [fold_left]. apply IH, Reachable_step, Hr.
Qed.

Lemma logged_rows_one t flag now :
  active (current_state t) = true ->
  session_start_timestamp t <> None ->
  exists r, logged_rows t flag now = [r] /\
            completed r = flag /\ end_time r = now /\
            Some (start_time r) = session_start_timestamp t /\
            Some (session_type r) = type_map (current_state t) /\
            pomodoro_count_at_completion r = pomodoros_completed_in_cycle t.
Proof.
  unfold logged_rows, logged_state. intros Ha Hts.
  destruct (session_start_timestamp t) as [started|]; [| congruence].
  destruct (current_state t); by_cases; try discriminate;
    eexists; repeat split.
Qed.

Lemma Reachable_timestamp cfg w :
  Reachable cfg w ->
  current_state (timer w) <> IDLE ->
  session_start_timestamp (timer w) <> None.
Proof.
  intros Hr Hc E. apply Hc.
  now apply (Reachable_Inv cfg w Hr).
Qed.

Lemma active_not_idle s : active s = true -> s <> IDLE.
Proof. intros Ha E. subst s. discriminate. Qed.

(** X7: on a termination signal in a reachable state the handler clears
    [running] and ends with [SystemExit(0)], which an [except Exception]
    clause does not catch.  It writes one incomplete record, stamped with
    the signal's clock, when a phase is running, and none when the timer is
    idle or paused. *)
Theorem shutdown_flushes_running_session cfg w signum now :
  Reachable cfg w ->
  outcome (_handle_exit signum now) w = Raise (SystemExit 0) /\
  outcome (try_except (_handle_exit signum now)
             (fun e => logger ERROR (Error_in_main_loop e))) w
    = Raise (SystemExit 0) /\
  running (timer (exec (_handle_exit signum now) w)) = false /\
  (active (current_state (timer w)) = true ->
   exists r,
     sessions (exec (_handle_exit signum now) w) = sessions w ++ [r] /\
     completed r = false /\ end_time r = now) /\
  (active (current_state (timer w)) = false ->
   sessions (exec (_handle_exit signum now) w) = sessions w).
Proof.
  intros Hr.
  destruct (handle_exit_spec signum now w) as (Ho & Ht & Hs).
  split; [exact Ho |]. split; [| split; [| split]].
  - unfold outcome, try_except in *.
    destruct (_handle_exit signum now w) as [r w1].
    simpl in Ho. subst r. reflexivity.
  - rewrite Ht. reflexivity.
  - intros Ha. rewrite Hs, Ha.
    destruct (logged_rows_one (timer w) false now Ha
                (Reachable_timestamp cfg w Hr (active_not_idle _ Ha)))
      as (r & -> & Hc & He & _).
    exists r. auto.
  - intros Ha. rewrite Hs, Ha. apply app_nil_r.
Qed.

Lemma shutdown_flushes_running_session_witness :
  let w := handle_all (init default_config)
             [Command "start" 1000; Tick 1001] in
  Reachable default_config w /\
  active (current_state (timer w)) = true /\
  exists r,
    sessions (exec (_handle_exit 15 1002) w) = sessions w ++ [r] /\
    completed r = false /\ end_time r = 1002.
Proof.
  intros w.
  assert (Hr : Reachable default_config w)
    by (repeat apply Reachable_step; apply Reachable_init).
  assert (Ha : active (current_state (timer w)) = true) by reflexivity.
  split; [exact Hr |]. split; [exact Ha |].
  exact (proj1 (proj2 (proj2 (proj2
           (shutdown_flushes_running_session default_config w 15 1002 Hr))))
           Ha).
Defined.

(** X8: when a running phase completes naturally in a reachable state, the
    one row inserted carries the start timestamp of the phase, the type of
    the phase, [completed = true] and the counter as it was before the
    completion: a Work session that brings the counter to n+1 is recorded
    with count n. *)
Theorem natural_completion_row cfg w now :
  Reachable cfg w ->
  active (current_state (timer w)) = true ->
  time_remaining_seconds (timer w) <= 0 ->
  exists r,
    sessions (handle w (Tick now)) = sessions w ++ [r] /\
    completed r = true /\
    end_time r = now /\
    Some (start_time r) = session_start_timestamp (timer w) /\
    Some (session_type r) = type_map (current_state (timer w)) /\
    pomodoro_count_at_completion r = pomodoros_completed_in_cycle (timer w) /\
    (current_state (timer w) = WORK ->
     pomodoros_completed_in_cycle (timer (handle w (Tick now))) =
       pomodoro_count_at_completion r + 1).
Proof.
  intros Hr Ha Htr.
  pose proof (Reachable_paused_state_set cfg w Hr) as Hp.
  destruct (handle_spec w (Tick now) Hp) as [Ht Hs].
  destruct (logged_rows_one (timer w) true now Ha
              (Reachable_timestamp cfg w Hr (active_not_idle _ Ha)))
    as (r & Er & Hc & He & Hst & Hty & Hn).
  exists r. rewrite Hs, Ht. cbn [rows_event after_event].
  unfold rows_tick, after_tick. rewrite Ha, (gtb_false _ Htr), Er.
  repeat split; try assumption.
  intros Hw. rewrite Hw, Hn. cbn [state_eqb].
  unfold after_complete_work, after_start_break. case_ifs; reflexivity.
Qed.

Lemma natural_completion_row_witness :
  let clock := map Z.of_nat (seq 1001 1500) in
  let w := handle_all (init default_config)
             (Command "start" 1000 :: map Tick clock) in
  Reachable default_config w /\
  active (current_state (timer w)) = true /\
  time_remaining_seconds (timer w) <= 0 /\
  exists r,
    sessions (handle w (Tick 2501)) = sessions w ++ [r] /\
    completed r = true /\ end_time r = 2501.
Proof.
  intros clock w.
  assert (Hr : Reachable default_config w)
    by (apply Reachable_handle_all, Reachable_init).
  assert (Ha : active (current_state (timer w)) = true)
    by (vm_compute; reflexivity).
  assert (Htr : time_remaining_seconds (timer w) <= 0)
    by (vm_compute; discriminate).
  split; [exact Hr |]. split; [exact Ha |]. split; [exact Htr |].
  destruct (natural_completion_row default_config w 2501 Hr Ha Htr)
    as (r & Hs & Hc & He & _).
  exists r. split; [exact Hs |]. split; [exact Hc | exact He].
Defined.

(** X9: a session that is paused and then abandoned is recorded twice.  In a
    reachable running phase, [pause] writes one incomplete row, and a
    following [reset] or [restart_cycle] writes a second incomplete row with
    the same start time and type; a shutdown while paused writes none. *)
Theorem paused_session_recorded_again cfg w t1 t2 how :
  Reachable cfg w ->
  active (current_state (timer w)) = true ->
  how = "reset"%string \/ how = "restart_cycle"%string ->
  let paused := handle w (Command "pause" t1) in
  exists r1 r2,
    sessions paused = sessions w ++ [r1] /\
    sessions (handle paused (Command how t2)) = sessions w ++ [r1; r2] /\
    completed r1 = false /\ completed r2 = false /\
    end_time r1 = t1 /\ end_time r2 = t2 /\
    start_time r2 = start_time r1 /\
    session_type r2 = session_type r1 /\
    (forall signum, sessions (exec (_handle_exit signum t2) paused)
                    = sessions paused).
Proof.
  intros Hr Ha Hhow paused.
  pose proof (Reachable_paused_state_set cfg w Hr) as Hp.
  pose proof (Reachable_timestamp cfg w Hr (active_not_idle _ Ha)) as Hts.
  destruct (handle_spec w (Command "pause" t1) Hp) as [Ht Hs].
  fold paused in Ht, Hs.
  assert (Ht' : timer paused = after_pause (timer w)).
  { rewrite Ht. cbn [after_event]. unfold after_command.
    cbn [String.eqb Ascii.eqb Bool.eqb]. now rewrite Ha. }
  assert (Hp' : current_state (timer paused) = PAUSED ->
                paused_state (timer paused) <> None)
    by (rewrite Ht'; discriminate).
  destruct (logged_rows_one (timer w) false t1 Ha Hts)
    as (r1 & E1 & Hc1 & He1 & Hst1 & Hty1 & _).
  destruct (logged_rows_one (timer w) false t2 Ha Hts)
    as (r2 & E2 & Hc2 & He2 & Hst2 & Hty2 & _).
  exists r1, r2.
  assert (Hs1 : sessions paused = sessions w ++ [r1]).
  { rewrite Hs. cbn [rows_event]. unfold rows_command.
    cbn [String.eqb Ascii.eqb Bool.eqb]. now rewrite Ha, E1. }
  split; [exact Hs1 |]. split; [| repeat split; try assumption].
  - destruct (handle_spec paused (Command how t2) Hp') as [_ ->].
    rewrite Hs1, <- app_assoc. f_equal. cbn [rows_event app]. f_equal.
    unfold rows_command.
    destruct Hhow as [-> | ->]; cbn [String.eqb Ascii.eqb Bool.eqb];
      rewrite Ht'; cbn [after_pause current_state set_current_state];
      fold (after_pause (timer w));
      rewrite (logged_rows_after_pause _ _ _ Ha); exact E2.
  - congruence.
  - congruence.
  - intros signum.
    destruct (handle_exit_spec signum t2 paused) as (_ & _ & ->).
    rewrite Ht'. cbn [after_pause current_state set_current_state].
    apply app_nil_r.
Qed.

Lemma paused_session_recorded_again_witness :
  let w := handle (init default_config) (Command "start" 1000) in
  let paused := handle w (Command "pause" 1010) in
  Reachable default_config w /\
  active (current_state (timer w)) = true /\
  exists r1 r2,
    sessions paused = sessions w ++ [r1] /\
    sessions (handle paused (Command "reset" 1020)) = sessions w ++ [r1; r2].
Proof.
  intros w paused.
  assert (Hr : Reachable default_config w)
    by (apply Reachable_step, Reachable_init).
  assert (Ha : active (current_state (timer w)) = true) by reflexivity.
  split; [exact Hr |]. split; [exact Ha |].
  destruct (paused_session_recorded_again default_config w 1010 1020
              "reset" Hr Ha (or_introl eq_refl))
    as (r1 & r2 & H1 & H2 & _).
  exists r1, r2. split; [exact H1 | exact H2].
Defined.

(** ** Further properties: the countdown *)




Lemma tick_zero_threshold now w :
  pomodoros_before_long_break (config (timer w)) = 0 ->
  current_state (timer w) = WORK ->
  time_remaining_seconds (timer w) <= 0 ->
  timer (handle w (Tick now)) =
    set_pomodoros_completed_in_cycle
      (pomodoros_completed_in_cycle (timer w) + 1) (timer w) /\
  sessions (handle w (Tick now)) =
    sessions w ++ logged_rows (timer w) true now /\
  exists l, log (handle w (Tick now)) =
              l ++ [(ERROR, Error_in_main_loop ZeroDivisionError)].
Proof.
  intros Hz Hc Htr.
  destruct (run_iteration_spec now w) as [Ht Hs].
  cbn [handle]. rewrite Ht, Hs. unfold after_tick, rows_tick.
  rewrite Hc, (gtb_false _ Htr). cbn [active state_in existsb state_eqb orb
    negb andb]. unfold after_complete_work. rewrite Hz.
  split; [reflexivity |]. split; [reflexivity |].
  change (wp (run_iteration now) w
            (fun _ w' =>
               exists l, log w' =
                           l ++ [(ERROR, Error_in_main_loop ZeroDivisionError)])).
  unfold run_iteration. apply wp_try_except, wp_self.
  rewrite Hc, (gtb_false _ Htr).
  cbn [state_in existsb state_eqb orb negb].
  apply complete_work_session_spec; [congruence |].
  intros w' _ _. rewrite Hz. cbn [Z.eqb is_Exception].
  apply wp_logger_last. wsimpl. eexists. reflexivity.
Qed.

Lemma zero_threshold_ticks clock : forall w,
  pomodoros_before_long_break (config (timer w)) = 0 ->
  current_state (timer w) = WORK ->
  time_remaining_seconds (timer w) <= 0 ->
  session_start_timestamp (timer w) <> None ->
  timer (handle_all w (map Tick clock)) =
    set_pomodoros_completed_in_cycle
      (pomodoros_completed_in_cycle (timer w) + Z.of_nat (List.length clock))
      (timer w) /\
  List.length (sessions (handle_all w (map Tick clock))) =
    (List.length (sessions w) + List.length clock)%nat /\
  (clock <> [] ->
   exists l, log (handle_all w (map Tick clock)) =
               l ++ [(ERROR, Error_in_main_loop ZeroDivisionError)]).
Proof.
  unfold handle_all.
  induction clock as [| now clock IH] using rev_ind; intros w Hz Hc Htr Hts.
  - cbn [map fold_left List.length Z.of_nat]. rewrite Z.add_0_r.
    split; [destruct (timer w); reflexivity |]. split; [lia | congruence].
  - rewrite map_app, fold_left_app. cbn [map fold_left].
    destruct (IH w Hz Hc Htr Hts) as (Ht1 & Hl1 & _).
    set (w1 := fold_left handle (map Tick clock) w) in *.
    assert (Hc1 : current_state (timer w1) = WORK) by now rewrite Ht1.
    destruct (tick_zero_threshold now w1) as (Ht & Hs & Hlog);
      try (rewrite Ht1; assumption).
    assert (Ha1 : active (current_state (timer w1)) = true)
      by now rewrite Hc1.
    destruct (logged_rows_one (timer w1) true now Ha1) as (r & Er & _);
      [rewrite Ht1; assumption |].
    rewrite Ht, Hs, Er, Ht1, !List.length_app, Hl1. cbn [List.length].
    split; [| split; [lia | intros _; exact Hlog]].
    unfold set_pomodoros_completed_in_cycle. wsimpl. f_equal. lia.
Qed.

(** X11: with a long-break threshold of 0 a Work session cannot complete.
    Once its countdown is at 0, every loop iteration increments the counter,
    inserts another completed work row and logs the [ZeroDivisionError], and
    the timer stays in Work with the same remaining time. *)
Theorem zero_threshold_never_leaves_work clock w :
  pomodoros_before_long_break (config (timer w)) = 0 ->
  current_state (timer w) = WORK ->
  time_remaining_seconds (timer w) <= 0 ->
  session_start_timestamp (timer w) <> None ->
  let w' := handle_all w (map Tick clock) in
  current_state (timer w') = WORK /\
  time_remaining_seconds (timer w') = time_remaining_seconds (timer w) /\
  pomodoros_completed_in_cycle (timer w') =
    pomodoros_completed_in_cycle (timer w) + Z.of_nat (List.length clock) /\
  List.length (sessions w') =
    (List.length (sessions w) + List.length clock)%nat /\
  (clock <> [] ->
   exists l, log w' = l ++ [(ERROR, Error_in_main_loop ZeroDivisionError)]).
Proof.
  intros Hz Hc Htr Hts w'.
  destruct (zero_threshold_ticks clock w Hz Hc Htr Hts) as (Ht & Hl & Hlog).
  fold w' in Ht, Hl, Hlog. rewrite Ht. wsimpl.
  repeat split; assumption.
Qed.

Lemma zero_threshold_never_leaves_work_witness :
  let cfg := {| work_duration_minutes := 0;
                short_break_duration_minutes := 5;
                long_break_duration_minutes := 15;
                pomodoros_before_long_break := 0;
                notification_sound_work_end := EmptyString;
                notification_sound_break_end := EmptyString |} in
  let w := handle (init cfg) (Command "start" 1000) in
  let w' := handle_all w (map Tick [1001; 1002; 1003]) in
  pomodoros_before_long_break (config (timer w)) = 0 /\
  current_state (timer w) = WORK /\
  time_remaining_seconds (timer w) <= 0 /\
  session_start_timestamp (timer w) <> None /\
  current_state (timer w') = WORK /\
  pomodoros_completed_in_cycle (timer w') = 3 /\
  List.length (sessions w') = 3%nat.
Proof.
  intros cfg w w'.
  assert (Hz : pomodoros_before_long_break (config (timer w)) = 0)
    by reflexivity.
  assert (Hc : current_state (timer w) = WORK) by reflexivity.
  assert (Htr : time_remaining_seconds (timer w) <= 0)
    by (vm_compute; discriminate).
  assert (Hts : session_start_timestamp (timer w) <> None)
    by (vm_compute; discriminate).
  split; [exact Hz |]. split; [exact Hc |]. split; [exact Htr |].
  split; [exact Hts |].
  destruct (zero_threshold_never_leaves_work [1001; 1002; 1003] w
              Hz Hc Htr Hts) as (H1 & _ & H3 & H4 & _).
  split; [exact H1 |]. split; [exact H3 | exact H4].
Defined.

(** ** Further properties: the loop and the commands *)

(** X12: [run] logs that the loop starts and then, while [running] is set,
    never leaves the loop and never lets an exception out of it: after any
    number of clock readings it is still looping, in the state reached by
    handling one loop iteration per reading.  With [running] already cleared
    it logs the start and leaves the loop at once. *)
Theorem run_is_a_sequence_of_ticks clock w :
  let started := with_log (log w ++ [(INFO, Starting_main_timer_loop)]) w in
  (running (timer w) = true ->
   run clock w
   = (Return still_looping, handle_all started (map Tick clock))) /\
  (running (timer w) = false -> run clock w = (Return loop_left, started)).
Proof.
  intros started.
  change (run clock w) with (run_loop clock started).
  assert (E : running (timer started) = running (timer w)) by reflexivity.
  split; intros Hrun; rewrite <- E in Hrun.
  - apply run_loop_as_ticks. exact Hrun.
  - destruct clock as [| now clock]; cbn [run_loop]; unfold bind, self;
      rewrite Hrun; reflexivity.
Qed.

(** X13: [reset] is idempotent in reachable states: a second [reset] leaves
    the timer as the first one left it (idle, nothing remaining, no start
    timestamp, counter kept) and writes no further session record. *)
Theorem reset_is_idempotent cfg w t1 t2 :
  Reachable cfg w ->
  let once := handle w (Command "reset" t1) in
  let twice := handle once (Command "reset" t2) in
  current_state (timer once) = IDLE /\
  time_remaining_seconds (timer once) = 0 /\
  session_start_timestamp (timer once) = None /\
  pomodoros_completed_in_cycle (timer once) =
    pomodoros_completed_in_cycle (timer w) /\
  timer twice = timer once /\
  sessions twice = sessions once.
Proof.
  intros Hr once twice.
  pose proof (Reachable_paused_state_set cfg w Hr) as Hp.
  destruct (handle_spec w (Command "reset" t1) Hp) as [Ht _].
  fold once in Ht.
  assert (Ht1 : timer once = after_reset (timer w)) by exact Ht.
  assert (Hp1 : current_state (timer once) = PAUSED ->
                paused_state (timer once) <> None)
    by (rewrite Ht1; discriminate).
  destruct (handle_spec once (Command "reset" t2) Hp1) as [Ht2 Hs2].
  fold twice in Ht2, Hs2.
  rewrite Ht2, Hs2, Ht1. repeat split. apply app_nil_r.
Qed.

Lemma reset_is_idempotent_witness :
  let w := handle_all (init default_config)
             [Command "start" 1000; Command "skip" 1010] in
  let once := handle w (Command "reset" 1020) in
  let twice := handle once (Command "reset" 1030) in
  Reachable default_config w /\
  timer twice = timer once /\
  sessions twice = sessions once.
Proof.
  intros w once twice.
  assert (Hr : Reachable default_config w)
    by (apply Reachable_handle_all, Reachable_init).
  split; [exact Hr |].
  exact (proj2 (proj2 (proj2 (proj2
           (reset_is_idempotent default_config w 1020 1030 Hr))))).
Defined.

(** X14: a command that does not apply to the current phase changes nothing
    at all: [pause] and [skip] outside Work, ShortBreak and LongBreak, and
    [resume] outside Paused, return normally with the state, tables and log
    they were given. *)
Theorem out_of_phase_commands_are_noops now w :
  (active (current_state (timer w)) = false ->
   _process_command "pause" now w = (Return tt, w) /\
   _process_command "skip" now w = (Return tt, w)) /\
  (current_state (timer w) <> PAUSED ->
   _process_command "resume" now w = (Return tt, w)).
Proof.
  unfold _process_command. cbn [String.eqb Ascii.eqb Bool.eqb].
  unfold bind, self.
  split; intros H; destruct (current_state (timer w));
    try discriminate; try (now destruct H); split; reflexivity.
Qed.

(** X15: the invariants of the reachable states.  A paused timer always has
    [paused_state] assigned, to Work, ShortBreak or LongBreak; the start
    timestamp is missing exactly when the timer is idle; the counter is
    never negative; the configuration is the one the timer was created
    with. *)
Theorem reachable_states_are_well_formed cfg w :
  Reachable cfg w ->
  (current_state (timer w) = PAUSED ->
   exists p, paused_state (timer w) = Some p /\ active p = true) /\
  (current_state (timer w) = IDLE <->
   session_start_timestamp (timer w) = None) /\
  0 <= pomodoros_completed_in_cycle (timer w) /\
  config (timer w) = cfg.
Proof.
  intros Hr.
  pose proof (Reachable_Inv cfg w Hr) as ((Hp1 & Hp2) & Hts & Hpc).
  split; [| split; [exact Hts | split;
    [exact Hpc | exact (Reachable_config cfg w Hr)]]].
  intros Hc. destruct (paused_state (timer w)) as [p |] eqn:Ep.
  - exists p. split; [reflexivity | now apply Hp2].
  - now destruct (Hp1 Hc).
Qed.

Lemma reachable_states_are_well_formed_witness :
  let w := handle_all (init default_config)
             [Command "start" 1000; Command "skip" 1010;
              Command "pause" 1020] in
  Reachable default_config w /\
  current_state (timer w) = PAUSED /\
  exists p, paused_state (timer w) = Some p /\ active p = true.
Proof.
  intros w.
  assert (Hr : Reachable default_config w)
    by (apply Reachable_handle_all, Reachable_init).
  assert (Hc : current_state (timer w) = PAUSED) by reflexivity.
  split; [exact Hr |]. split; [exact Hc |].
  exact (proj1 (reachable_states_are_well_formed default_config w Hr) Hc).
Defined.

Lemma logged_rows_both_flags t now :
  active (current_state t) = true ->
  session_start_timestamp t <> None ->
  exists r r',
    logged_rows t true now = [r] /\
    logged_rows t false now = [r'] /\
    completed r = true /\ completed r' = false /\
    start_time r' = start_time r /\ end_time r' = end_time r /\
    session_type r' = session_type r /\
    duration_actual_seconds r' = duration_actual_seconds r /\
    pomodoro_count_at_completion r' = pomodoro_count_at_completion r.
Proof.
  unfold logged_rows, logged_state. intros Ha Hts.
  destruct (session_start_timestamp t) as [started|]; [| congruence].
  destruct (current_state t); by_cases; try discriminate;
    do 2 eexists; repeat split.
Qed.

(** X16: [skip] advances exactly as natural completion would.  In a running
    phase with a non-zero threshold, the timer after [skip] is the timer that
    a loop iteration would produce had the countdown been at 0.  The session
    rows differ: natural completion inserts one completed row; [skip]
    inserts the same row marked incomplete, once when a break is skipped and
    twice when Work is skipped. *)
Theorem skip_advances_like_natural_completion w now :
  active (current_state (timer w)) = true ->
  pomodoros_before_long_break (config (timer w)) <> 0 ->
  let at_zero := with_timer (set_time_remaining_seconds 0 (timer w)) w in
  timer (handle w (Command "skip" now)) = timer (handle at_zero (Tick now)) /\
  (session_start_timestamp (timer w) <> None ->
   exists r r',
     sessions (handle at_zero (Tick now)) = sessions w ++ [r] /\
     sessions (handle w (Command "skip" now)) =
       sessions w ++ (if state_eqb (current_state (timer w)) WORK
                      then [r'; r'] else [r']) /\
     completed r = true /\ completed r' = false /\
     start_time r' = start_time r /\ end_time r' = end_time r /\
     session_type r' = session_type r /\
     duration_actual_seconds r' = duration_actual_seconds r /\
     pomodoro_count_at_completion r' = pomodoro_count_at_completion r).
Proof.
  intros Ha Hthr at_zero.
  assert (Hp : current_state (timer w) = PAUSED ->
               paused_state (timer w) <> None)
    by (intros E; rewrite E in Ha; discriminate).
  destruct (handle_spec w (Command "skip" now) Hp) as [Ht Hs].
  destruct (run_iteration_spec now at_zero) as [Ht0 Hs0].
  change (exec (run_iteration now) at_zero) with (handle at_zero (Tick now))
    in Ht0, Hs0.
  split.
  - rewrite Ht, Ht0. cbn [after_event]. subst at_zero. wsimpl.
    unfold after_command, after_tick. cbn [String.eqb Ascii.eqb Bool.eqb].
    wsimpl. cbn [Z.gtb Z.compare]. apply Z.eqb_neq in Hthr.
    unfold after_complete_work, after_start_break, after_start_work.
    wsimpl. rewrite Hthr. revert Ha.
    destruct (current_state (timer w)); by_cases; intros Ha;
      try discriminate; case_ifs; reflexivity.
  - intros Hts.
    destruct (logged_rows_both_flags (timer w) now Ha Hts)
      as (r & r' & Er & Er' & Hrest).
    exists r, r'. split; [| split; [| exact Hrest]].
    + rewrite Hs0. subst at_zero. unfold rows_tick. wsimpl. rewrite Ha.
      cbn [Z.gtb Z.compare negb andb].
      change (logged_rows (set_time_remaining_seconds 0 (timer w)) true now)
        with (logged_rows (timer w) true now).
      now rewrite Er.
    + rewrite Hs. cbn [rows_event]. unfold rows_command.
      cbn [String.eqb Ascii.eqb Bool.eqb]. rewrite Er'. revert Ha.
      destruct (current_state (timer w)); by_cases; intros Ha;
        try discriminate; reflexivity.
Qed.

Lemma skip_advances_like_natural_completion_witness :
  let w := handle_all (init default_config)
             [Command "start" 1000; Tick 1001] in
  let at_zero := with_timer (set_time_remaining_seconds 0 (timer w)) w in
  active (current_state (timer w)) = true /\
  pomodoros_before_long_break (config (timer w)) <> 0 /\
  session_start_timestamp (timer w) <> None /\
  timer (handle w (Command "skip" 1002)) = timer (handle at_zero (Tick 1002))
  /\
  exists r r',
    sessions (handle at_zero (Tick 1002)) = sessions w ++ [r] /\
    sessions (handle w (Command "skip" 1002)) = sessions w ++ [r'; r'].
Proof.
  intros w at_zero.
  assert (Ha : active (current_state (timer w)) = true) by reflexivity.
  assert (Hthr : pomodoros_before_long_break (config (timer w)) <> 0)
    by (vm_compute; discriminate).
  assert (Hts : session_start_timestamp (timer w) <> None)
    by (vm_compute; discriminate).
  split; [exact Ha |]. split; [exact Hthr |]. split; [exact Hts |].
  destruct (skip_advances_like_natural_completion w 1002 Ha Hthr)
    as (Ht & Hrows).
  split; [exact Ht |].
  destruct (Hrows Hts) as (r & r' & H1 & H2 & _).
  exists r, r'. split; [exact H1 | exact H2].
Defined.

Lemma run_is_a_sequence_of_ticks_witness :
  let w := handle (init default_config) (Command "start" 1000) in
  let started := with_log (log w ++ [(INFO, Starting_main_timer_loop)]) w in
  running (timer w) = true /\
  run [1001; 1002] w
  = (Return still_looping, handle_all started [Tick 1001; Tick 1002]).
Proof.
  intros w started.
  assert (Hrun : running (timer w) = true) by reflexivity.
  split; [exact Hrun |].
  exact (proj1 (run_is_a_sequence_of_ticks [1001; 1002] w) Hrun).
Defined.

Lemma out_of_phase_commands_are_noops_witness :
  let w := handle_all (init default_config)
             [Command "start" 1000; Command "pause" 1010] in
  active (current_state (timer w)) = false /\
  _process_command "pause" 1020 w = (Return tt, w) /\
  _process_command "skip" 1020 w = (Return tt, w).
Proof.
  intros w.
  assert (Ha : active (current_state (timer w)) = false) by reflexivity.
  split; [exact Ha |].
  exact (proj1 (out_of_phase_commands_are_noops 1020 w) Ha).
Defined.
